(** * tie-domain-age-analyzer: a shallow embedding of [main.py]

    The script validates a domain name, asks a WHOIS registry for the
    domain's creation date, asks the Wayback Machine availability API for
    an archived snapshot, and prints one line for each answer.

    The embedding keeps the shape of the Python source:
    - Python values are an inductive type [pyval]; JSON objects are
      [gmap string pyval];
    - [datetime] and [timedelta] follow the integer arithmetic of
      CPython's [datetime] module;
    - the two collaborators ([whois.whois], [requests.get]) and the clock
      ([datetime.now]) are fields of a [World];
    - effects (logging, printing, network calls, exceptions, [sys.exit])
      live in a small monad [M] that threads a trace of events. *)

From Stdlib Require Import ZArith String Ascii List Lia PrimFloat DecimalString.
From stdpp Require Import base option gmap strings.

Import ListNotations.
Local Open Scope string_scope.
Local Open Scope Z_scope.

(** ** Dates and durations (module [datetime]) *)

Module DateTime.

(** A [datetime] object.  [utcoffset] is what the method of the same
    name returns: [None] for a naive object, the offset in seconds for
    an aware one. *)
Record datetime : Type := mk_datetime {
  year : Z; month : Z; day : Z;
  hour : Z; minute : Z; second : Z; microsecond : Z;
  utcoffset : option Z
}.

(** A normalised [timedelta]. *)
Record timedelta : Type := mk_timedelta {
  days : Z; seconds : Z; microseconds : Z
}.

Definition is_leap (y : Z) : bool :=
  (y mod 4 =? 0) && (negb (y mod 100 =? 0) || (y mod 400 =? 0)).

Definition days_before_year (y : Z) : Z :=
  let y' := y - 1 in
  y' * 365 + y' / 4 - y' / 100 + y' / 400.

(** [_DAYS_BEFORE_MONTH], indexed from 1. *)
Definition DAYS_BEFORE_MONTH (m : Z) : Z :=
  match m with
  | 1 => 0 | 2 => 31 | 3 => 59 | 4 => 90 | 5 => 120 | 6 => 151
  | 7 => 181 | 8 => 212 | 9 => 243 | 10 => 273 | 11 => 304 | 12 => 334
  | _ => 0
  end.

Definition days_before_month (y m : Z) : Z :=
  DAYS_BEFORE_MONTH m + (if (2 <? m) && is_leap y then 1 else 0).

Definition ymd2ord (y m d : Z) : Z :=
  days_before_year y + days_before_month y m + d.

Definition toordinal (t : datetime) : Z :=
  ymd2ord (year t) (month t) (day t).

(** [timedelta(days, seconds, microseconds)] on integers: carries are
    taken with [divmod], which rounds towards minus infinity. *)
Definition timedelta_new (d s us : Z) : timedelta :=
  let s' := s + us / 1000000 in
  {| days := d + s' / 86400;
     seconds := s' mod 86400;
     microseconds := us mod 1000000 |}.

Definition is_naive (t : datetime) : bool :=
  match utcoffset t with None => true | Some _ => false end.

(** [datetime.__sub__] between two datetimes.  [None] stands for the
    [TypeError] raised when exactly one operand is aware.  (The script
    only ever subtracts from the naive [datetime.now()].) *)
Definition sub (a b : datetime) : option timedelta :=
  let secs1 := second a + minute a * 60 + hour a * 3600 in
  let secs2 := second b + minute b * 60 + hour b * 3600 in
  let base := timedelta_new (toordinal a - toordinal b) (secs1 - secs2)
                            (microsecond a - microsecond b) in
  match utcoffset a, utcoffset b with
  | None, None => Some base
  | Some oa, Some ob =>
      Some (timedelta_new (days base) (seconds base + ob - oa)
                          (microseconds base))
  | _, _ => None
  end.

(** Microseconds elapsed since the start of day 0 of the proleptic
    calendar, reading the fields of a naive object as they are. *)
Definition to_microseconds (t : datetime) : Z :=
  ((toordinal t * 86400 + hour t * 3600 + minute t * 60 + second t)
   * 1000000) + microsecond t.

Definition MICROSECONDS_PER_DAY : Z := 86400 * 1000000.

End DateTime.

Import DateTime.

(** ** Python values *)

#[warnings="-register-all"]
Inductive pyval : Type :=
| PNone
| PBool (b : bool)
| PInt (z : Z)
| PFloat (f : float)
| PStr (s : string)
| PList (l : list pyval)
| PDict (d : gmap string pyval)
| PDateTime (t : datetime).

(** [bool(v)]. *)
Definition truthy (v : pyval) : bool :=
  match v with
  | PNone => false
  | PBool b => b
  | PInt z => negb (z =? 0)
  | PFloat f => negb (PrimFloat.eqb f 0%float)
  | PStr s => negb (String.eqb s "")
  | PList l => match l with [] => false | _ => true end
  | PDict d => negb (bool_decide (d = ∅))
  | PDateTime _ => true
  end.

(** ** Exceptions

    Only instances of [Exception] are modelled as values of [exn];
    [SystemExit], which [sys.exit] raises and which is not an [Exception],
    is a separate outcome of a computation (see [outcome]). *)

Inductive exn_class : Type :=
| PywhoisError            (* whois.parser.PywhoisError *)
| RequestException        (* requests.exceptions.RequestException itself *)
| HTTPError               (* raised by raise_for_status *)
| ConnectionError         (* requests.exceptions.ConnectionError *)
| Timeout                 (* requests.exceptions.Timeout *)
| RequestsJSONDecodeError (* requests.exceptions.JSONDecodeError *)
| ValueError
| TypeError
| KeyError
| AttributeError
| OtherException.

Record exn : Type := Exn { exn_cls : exn_class; exn_msg : string }.

(** [isinstance(e, whois.parser.PywhoisError)]. *)
Definition is_PywhoisError (e : exn) : bool :=
  match exn_cls e with PywhoisError => true | _ => false end.

(** [isinstance(e, requests.exceptions.RequestException)]. *)
Definition is_RequestException (e : exn) : bool :=
  match exn_cls e with
  | RequestException | HTTPError | ConnectionError | Timeout
  | RequestsJSONDecodeError => true
  | _ => false
  end.

(** ** Formatted text

    An f-string is kept as the list of its pieces, so that the literal
    text of the source and the interpolated values stay apart. *)

Inductive fragment : Type :=
| Lit (s : string)
| Fmt (v : pyval)
| FmtExn (e : exn).

Definition fstring : Type := list fragment.

(** ** Events and the effect monad *)

Inductive level : Type := DEBUG | INFO | WARNING | ERROR.

Inductive event : Type :=
| EvLog (lvl : level) (msg : fstring)   (* a call of logging.<lvl> *)
| EvSetLevel (lvl : level)              (* logging.getLogger().setLevel *)
| EvPrint (msg : fstring)               (* print(msg) *)
| EvWhois (domain : string)             (* whois.whois(domain) is issued *)
| EvHttpGet (url : string).             (* requests.get(url) is issued *)

Definition trace : Type := list event.

(** How a computation ends: it returns a value, raises an [Exception],
    or raises [SystemExit] with an exit code. *)
Inductive outcome (A : Type) : Type :=
| Return (a : A)
| Raise (e : exn)
| Exit (code : Z).

Arguments Return {A} a.
Arguments Raise {A} e.
Arguments Exit {A} code.

Definition M (A : Type) : Type := trace -> outcome A * trace.

Definition ret {A} (a : A) : M A := fun tr => (Return a, tr).

Definition bind {A B} (m : M A) (k : A -> M B) : M B :=
  fun tr =>
    match m tr with
    | (Return a, tr') => k a tr'
    | (Raise e, tr') => (Raise e, tr')
    | (Exit c, tr') => (Exit c, tr')
    end.

(** stdpp's monad notations ([x ← m; k] and [m;; k]) are used for [M]. *)
#[global] Instance M_ret : MRet M := @ret.
#[global] Instance M_bind : MBind M := fun A B k m => bind m k.

Definition emit (ev : event) : M unit := fun tr => (Return tt, (tr ++ [ev])%list).

Definition raise {A} (e : exn) : M A := fun tr => (Raise e, tr).

(** [sys.exit(code)]. *)
Definition sys_exit {A} (code : Z) : M A := fun tr => (Exit code, tr).

(** [try: body / except ...: handler].  The handler is given the raised
    [Exception]; every [try] of the source ends with [except Exception],
    so a handler always applies.  [SystemExit] passes through. *)
Definition try_except {A} (body : M A) (handler : exn -> M A) : M A :=
  fun tr =>
    match body tr with
    | (Raise e, tr') => handler e tr'
    | r => r
    end.

(** Lifts the answer of a collaborator: [inl e] raises [e]. *)
Definition lift {A} (r : exn + A) : M A :=
  match r with inl e => raise e | inr a => ret a end.

Definition logging_debug (msg : fstring) : M unit := emit (EvLog DEBUG msg).
Definition logging_info (msg : fstring) : M unit := emit (EvLog INFO msg).
Definition logging_warning (msg : fstring) : M unit := emit (EvLog WARNING msg).
Definition logging_error (msg : fstring) : M unit := emit (EvLog ERROR msg).
Definition print (msg : fstring) : M unit := emit (EvPrint msg).

(** ** Operators of Python used by the script *)

(** [needle in hay] for two strings: substring test. *)
Fixpoint str_contains (needle hay : string) : bool :=
  String.prefix needle hay ||
  match hay with
  | EmptyString => false
  | String _ rest => str_contains needle rest
  end.

(** [v == key] for a string [key]. *)
Definition eq_str (key : string) (v : pyval) : bool :=
  match v with PStr s => String.eqb s key | _ => false end.

(** [key in v] for a string [key]. *)
Definition py_contains (key : string) (v : pyval) : M bool :=
  match v with
  | PDict d => mret (bool_decide (is_Some (d !! key)))
  | PList l => mret (existsb (eq_str key) l)
  | PStr s => mret (str_contains key s)
  | _ => raise (Exn TypeError "argument is not iterable")
  end.

(** [v[key]] for a string [key]. *)
Definition py_getitem (v : pyval) (key : string) : M pyval :=
  match v with
  | PDict d =>
      match d !! key with
      | Some x => mret x
      | None => raise (Exn KeyError (String.append "'" (String.append key "'")))
      end
  | PList _ => raise (Exn TypeError "list indices must be integers or slices, not str")
  | PStr _ => raise (Exn TypeError "string indices must be integers, not 'str'")
  | _ => raise (Exn TypeError "object is not subscriptable")
  end.

(** [l[0]] for a list [l]. *)
Definition list_first (l : list pyval) : M pyval :=
  match l with
  | x :: _ => mret x
  | [] => raise (Exn OtherException "list index out of range")
  end.

(** [now - v]: only a datetime can be subtracted from a datetime, and
    only when both are naive or both are aware. *)
Definition datetime_minus (now : datetime) (v : pyval) : M timedelta :=
  match v with
  | PDateTime t =>
      match DateTime.sub now t with
      | Some d => mret d
      | None => raise (Exn TypeError "can't subtract offset-naive and offset-aware datetimes")
      end
  | _ => raise (Exn TypeError "unsupported operand type(s) for -")
  end.

(** ** The outside world *)

(** What [whois.whois] returns.  Reading [creation_date] of an entry
    that has none gives [None], so the field is always a value. *)
Record WhoisEntry : Type := { creation_date : pyval }.

(** What [requests.get] returns: the status code and what [.json()]
    yields on the body (a parsed value, or the exception it raises). *)
Record Response : Type := {
  status_code : Z;
  json : exn + pyval
}.

Record World : Type := {
  whois_whois : string -> exn + WhoisEntry;
  requests_get : string -> exn + Response;
  clock : datetime
}.

(** [datetime.now()] is called without a time zone: whatever the wall
    clock shows, the object it returns is naive. *)
Definition datetime_now (w : World) : datetime :=
  let c := clock w in
  mk_datetime (year c) (month c) (day c)
              (hour c) (minute c) (second c) (microsecond c) None.

(** [response.raise_for_status()]. *)
Definition raise_for_status (r : Response) : M unit :=
  if (400 <=? status_code r) && (status_code r <? 600)
  then raise (Exn HTTPError "Client or Server Error")
  else mret tt.

(** ** The functions of [main.py] *)

Section Program.

Variable w : World.

Definition get_domain_age (domain : string) : M (option Z) :=
  try_except
    (emit (EvWhois domain);;
     domain_info ← lift (whois_whois w domain);
     if truthy (creation_date domain_info) then
       creation_date ←
         match creation_date domain_info with
         | PList l => list_first l
         | v => mret v
         end;
       if truthy creation_date then
         delta ← datetime_minus (datetime_now w) creation_date;
         let domain_age := days delta in
         logging_info [Lit "Domain "; Fmt (PStr domain);
                       Lit " creation date: "; Fmt creation_date];;
         mret (Some domain_age)
       else
         logging_warning [Lit "Could not determine creation date for ";
                          Fmt (PStr domain); Lit "."];;
         mret None
     else
       logging_warning [Lit "No creation date found in WHOIS data for ";
                        Fmt (PStr domain); Lit "."];;
       mret None)
    (fun e =>
       if is_PywhoisError e then
         logging_error [Lit "WHOIS query failed for "; Fmt (PStr domain);
                        Lit ": "; FmtExn e];;
         mret None
       else
         logging_error [Lit "An unexpected error occurred while fetching WHOIS data for ";
                        Fmt (PStr domain); Lit ": "; FmtExn e];;
         mret None).

Definition WAYBACK_ENDPOINT : string := "http://archive.org/wayback/available?url=".

Definition check_wayback_machine (domain : string) : M pyval :=
  try_except
    (let url := String.append WAYBACK_ENDPOINT domain in
     emit (EvHttpGet url);;
     response ← lift (requests_get w url);
     raise_for_status response;;
     data ← lift (json response);
     present ←
       (if truthy data then
          has ← py_contains "archived_snapshots" data;
          if (has : bool) then
            snapshots ← py_getitem data "archived_snapshots";
            mret (truthy snapshots)
          else mret false
        else mret false);
     if (present : bool) then
       snapshots ← py_getitem data "archived_snapshots";
       has_closest ← py_contains "closest" snapshots;
       if (has_closest : bool) then
         closest ← py_getitem snapshots "closest";
         oldest_url ← py_getitem closest "url";
         logging_info [Lit "Oldest Wayback Machine URL for "; Fmt (PStr domain);
                       Lit ": "; Fmt oldest_url];;
         mret oldest_url
       else
         logging_warning [Lit "No archived snapshots found for ";
                          Fmt (PStr domain); Lit " in wayback machine"];;
         mret PNone
     else
       logging_info [Lit "Domain "; Fmt (PStr domain);
                     Lit " not found in the Wayback Machine."];;
       mret PNone)
    (fun e =>
       if is_RequestException e then
         logging_error [Lit "Error accessing Wayback Machine for ";
                        Fmt (PStr domain); Lit ": "; FmtExn e];;
         mret PNone
       else
         logging_error [Lit "An unexpected error occurred while checking the Wayback Machine for ";
                        Fmt (PStr domain); Lit ": "; FmtExn e];;
         mret PNone).

Definition is_valid_domain (domain : pyval) : M bool :=
  match domain with
  | PStr s =>
      if negb (truthy domain) then
        logging_error [Lit "Invalid input: Domain cannot be empty."];;
        mret false
      else if str_contains " " s then
        logging_error [Lit "Invalid input: Domain cannot contain spaces."];;
        mret false
      else mret true
  | _ =>
      logging_error [Lit "Invalid input: Domain must be a string."];;
      mret false
  end.

(** The namespace [parse_args] returns; [argparse] gives strings. *)
Record Args : Type := { domain : string; verbose : bool }.

Definition main (args : Args) : M unit :=
  (if verbose args then
     emit (EvSetLevel DEBUG);;
     logging_debug [Lit "Verbose logging enabled."]
   else mret tt);;
  let domain := domain args in
  valid ← is_valid_domain (PStr domain);
  (if negb valid then sys_exit 1 else mret tt);;
  domain_age ← get_domain_age domain;
  match domain_age with
  | Some age =>
      print [Lit "Domain "; Fmt (PStr domain); Lit " is "; Fmt (PInt age);
             Lit " days old."]
  | None =>
      print [Lit "Could not determine the age of domain "; Fmt (PStr domain);
             Lit "."]
  end;;
  oldest_wayback_url ← check_wayback_machine domain;
  if truthy oldest_wayback_url then
    print [Lit "Oldest Wayback Machine URL for "; Fmt (PStr domain);
           Lit ": "; Fmt oldest_wayback_url]
  else
    print [Lit "Domain "; Fmt (PStr domain);
           Lit " not found in the Wayback Machine."].

End Program.

(** ** Observing a run *)

(** The exit status of the process for an outcome of [main]: returning
    normally gives 0, [sys.exit(c)] gives [c], and an exception that
    reaches the top level gives 1. *)
Definition exit_status (o : outcome unit) : Z :=
  match o with
  | Return _ => 0
  | Exit c => c
  | Raise _ => 1
  end.

Definition is_network_call (ev : event) : bool :=
  match ev with
  | EvWhois _ | EvHttpGet _ => true
  | _ => false
  end.

(** The network calls of a trace, in order. *)
Definition network_calls (tr : trace) : list event := List.filter is_network_call tr.

(** The lines written to standard output, in order. *)
Fixpoint printed (tr : trace) : list fstring :=
  match tr with
  | [] => []
  | EvPrint msg :: tr' => msg :: printed tr'
  | _ :: tr' => printed tr'
  end.

(** [str(v)] for the values whose text form is modelled: strings,
    integers, [None] and booleans. *)
Definition py_str (v : pyval) : option string :=
  match v with
  | PStr s => Some s
  | PInt z => Some (DecimalString.NilZero.string_of_int (Z.to_int z))
  | PNone => Some "None"
  | PBool true => Some "True"
  | PBool false => Some "False"
  | _ => None
  end.

(** The text of an f-string, when all its pieces have a modelled text. *)
Fixpoint render (f : fstring) : option string :=
  match f with
  | [] => Some ""
  | Lit s :: rest => String.append s <$> render rest
  | Fmt v :: rest =>
      s ← py_str v; String.append s <$> render rest
  | FmtExn e :: rest => String.append (exn_msg e) <$> render rest
  end.

(** Runs [main] from the empty trace. *)
Definition run (w : World) (args : Args) : outcome unit * trace := main w args [].

(** ** Vocabulary of the statements *)

Definition wayback_url (d : string) : string := String.append WAYBACK_ENDPOINT d.

(** [raise_for_status] lets a response through. *)
Definition status_ok (r : Response) : Prop := status_code r < 400 \/ 600 <= status_code r.

(** A domain that passes [is_valid_domain]: a non-empty string without
    a space character. *)
Definition valid_domain (s : string) : Prop :=
  s <> "" /\ ~ In " "%char (list_ascii_of_string s).

(** The line [main] prints for an answer of the resolver. *)
Definition age_line (d : string) (age : option Z) : fstring :=
  match age with
  | Some a => [Lit "Domain "; Fmt (PStr d); Lit " is "; Fmt (PInt a); Lit " days old."]
  | None => [Lit "Could not determine the age of domain "; Fmt (PStr d); Lit "."]
  end.

(** The line [main] prints for an answer of the checker. *)
Definition wayback_line (d : string) (url : pyval) : fstring :=
  if truthy url
  then [Lit "Oldest Wayback Machine URL for "; Fmt (PStr d); Lit ": "; Fmt url]
  else [Lit "Domain "; Fmt (PStr d); Lit " not found in the Wayback Machine."].

(** What the [--verbose] flag adds at the start of a run. *)
Definition verbose_events (args : Args) : trace :=
  if verbose args
  then [EvSetLevel DEBUG; EvLog DEBUG [Lit "Verbose logging enabled."]]
  else [].

(** A value [is_valid_domain] turns down: not a string, the empty
    string, or a string with a space in it. *)
Definition rejected (v : pyval) : Prop :=
  (forall s, v <> PStr s) \/ v = PStr "" \/
  (exists s, v = PStr s /\ In " "%char (list_ascii_of_string s)).

(** An element of a [creation_date] list: a timestamp, or [None]. *)
Definition date_item (t : option datetime) : pyval :=
  match t with
  | Some T => PDateTime T
  | None => PNone
  end.

(** Concrete worlds used to run the program. *)
Module Examples.

Definition T2000 : datetime := mk_datetime 2000 1 1 0 0 0 0 None.
Definition T1995 : datetime := mk_datetime 1995 8 14 4 0 0 0 None.
Definition T2000_utc : datetime := mk_datetime 2000 1 1 0 0 0 0 (Some 0).
Definition T2021 : datetime := mk_datetime 2021 1 1 0 0 0 0 None.
Definition T2010 : datetime := mk_datetime 2010 1 3 12 0 0 0 None.
Definition now2020 : datetime := mk_datetime 2020 1 1 12 0 0 0 None.

Definition snapshot_url : string :=
  "http://web.archive.org/web/20010101000000/example.com".

Definition closest_with_url : pyval := PDict {[ "url" := PStr snapshot_url ]}.
Definition closest_without_url : pyval := PDict {[ "status" := PStr "200" ]}.

Definition snapshots_of (closest : pyval) : gmap string pyval :=
  {[ "closest" := closest ]}.

Definition body_of (snapshots : pyval) : gmap string pyval :=
  {[ "url" := PStr "example.com"; "archived_snapshots" := snapshots ]}.

Definition archived : pyval := PDict (body_of (PDict (snapshots_of closest_with_url))).
Definition archived_no_url : pyval :=
  PDict (body_of (PDict (snapshots_of closest_without_url))).
Definition never_archived : pyval := PDict (body_of (PDict ∅)).
Definition empty_body : pyval := PDict ∅.

Definition ok (data : pyval) : exn + Response :=
  inr {| status_code := 200; json := inr data |}.

Definition world (creation : exn + pyval) (http : exn + Response) : World :=
  {| whois_whois := fun _ =>
       match creation with
       | inl e => inl e
       | inr v => inr {| creation_date := v |}
       end;
     requests_get := fun _ => http;
     clock := now2020 |}.

Definition example_com : Args := {| domain := "example.com"; verbose := false |}.
Definition with_space : Args := {| domain := "example .com"; verbose := true |}.

Definition connection_refused : exn := Exn ConnectionError "connection refused".
Definition no_match : exn := Exn PywhoisError "No match for domain".

End Examples.

(** ** Running the monad *)

Ltac unfold_M :=
  unfold try_except, mbind, M_bind, bind, mret, M_ret, ret, lift, raise,
    sys_exit, logging_debug, logging_info, logging_warning, logging_error,
    print, emit in *.

Ltac step_M := unfold_M; simpl; repeat (rewrite <- ?app_assoc; simpl).

(** * Lemmas *)

(** ** Arithmetic of [timedelta] *)

Section TimedeltaFacts.

Lemma timedelta_new_days (d s us : Z) :
  days (timedelta_new d s us)
  = ((d * 86400 + s) * 1000000 + us) / MICROSECONDS_PER_DAY.
Proof.
  unfold timedelta_new, MICROSECONDS_PER_DAY; simpl.
  replace (86400 * 1000000) with (1000000 * 86400) by lia.
  rewrite <- Z.div_div by lia.
  rewrite Z.div_add_l by lia.
  replace (d * 86400 + s + us / 1000000) with (s + us / 1000000 + d * 86400) by lia.
  rewrite Z.div_add by lia.
  lia.
Qed.

(** Subtracting two naive datetimes always succeeds, and the [days] of
    the difference is the floor of the elapsed time in days. *)
Lemma sub_naive_days (a b : datetime) :
  utcoffset a = None -> utcoffset b = None ->
  exists delta,
    DateTime.sub a b = Some delta /\
    days delta = (to_microseconds a - to_microseconds b) / MICROSECONDS_PER_DAY.
Proof.
  intros Ha Hb. unfold DateTime.sub. rewrite Ha, Hb.
  eexists; split; [reflexivity|].
  rewrite timedelta_new_days. f_equal.
  unfold to_microseconds. lia.
Qed.

Lemma sub_mixed (a b : datetime) (off : Z) :
  utcoffset a = None -> utcoffset b = Some off -> DateTime.sub a b = None.
Proof.
  intros Ha Hb. unfold DateTime.sub. now rewrite Ha, Hb.
Qed.

Lemma datetime_now_naive (w : World) : utcoffset (datetime_now w) = None.
Proof. reflexivity. Qed.

End TimedeltaFacts.

(** ** Strings *)

Section StringFacts.

Lemma prefix_empty (s : string) : String.prefix "" s = true.
Proof. now destruct s. Qed.

(** [" " in s] holds exactly when one of the characters of [s] is a
    space. *)
Lemma str_contains_space (s : string) :
  str_contains " " s = true <-> In " "%char (list_ascii_of_string s).
Proof.
  induction s as [|c s IH].
  - simpl. split; [discriminate | tauto].
  - change (str_contains " " (String c s))
      with ((if ascii_dec " " c then String.prefix "" s else false)
            || str_contains " " s).
    change (list_ascii_of_string (String c s)) with (c :: list_ascii_of_string s).
    destruct (ascii_dec " " c) as [<-|Hne].
    + rewrite prefix_empty. split; [intros _; now left | reflexivity].
    + rewrite orb_false_l, IH.
      split; [now right | intros [Hc | Hin]; [congruence | exact Hin]].
Qed.

Lemma str_contains_space_false (s : string) :
  str_contains " " s = false <-> ~ In " "%char (list_ascii_of_string s).
Proof.
  rewrite <- str_contains_space. destruct (str_contains " " s); split; congruence.
Qed.

Lemma eqb_empty_false (s : string) : s <> "" -> String.eqb s "" = false.
Proof. intros H. now apply String.eqb_neq. Qed.

End StringFacts.

(** ** The domain age resolver *)

Section GetDomainAge.

Variable w : World.
Variable d : string.

(** A raising lookup ends in the matching [except] branch. *)
Lemma get_domain_age_lookup_raises (e : exn) (tr : trace) :
  whois_whois w d = inl e ->
  exists msg,
    get_domain_age w d tr = (Return None, (tr ++ [EvWhois d; EvLog ERROR msg])%list).
Proof.
  intros Hw. unfold get_domain_age. step_M. rewrite Hw. simpl.
  destruct (is_PywhoisError e); simpl; rewrite <- app_assoc; simpl; eauto.
Qed.

(** A falsy [creation_date] (absent, [None], empty list, ...) gives
    the first warning. *)
Lemma get_domain_age_no_creation_date (entry : WhoisEntry) (tr : trace) :
  whois_whois w d = inr entry ->
  truthy (creation_date entry) = false ->
  get_domain_age w d tr
  = (Return None,
     (tr ++ [EvWhois d;
             EvLog WARNING [Lit "No creation date found in WHOIS data for ";
                            Fmt (PStr d); Lit "."]])%list).
Proof.
  intros Hw Hc. unfold get_domain_age. step_M. rewrite Hw. simpl.
  rewrite Hc. simpl. now rewrite <- app_assoc.
Qed.

(** The value the subtraction is applied to, once the list case has
    been resolved, decides the rest. *)
Lemma get_domain_age_naive (entry : WhoisEntry) (T : datetime) (tr : trace) :
  whois_whois w d = inr entry ->
  creation_date entry = PDateTime T ->
  utcoffset T = None ->
  get_domain_age w d tr
  = (Return (Some ((to_microseconds (datetime_now w) - to_microseconds T)
                   / MICROSECONDS_PER_DAY)),
     (tr ++ [EvWhois d;
             EvLog INFO [Lit "Domain "; Fmt (PStr d);
                         Lit " creation date: "; Fmt (PDateTime T)]])%list).
Proof.
  intros Hw Hc HT.
  destruct (sub_naive_days (datetime_now w) T (datetime_now_naive w) HT)
    as (delta & Hsub & Hdays).
  unfold get_domain_age, datetime_minus. step_M. rewrite Hw. simpl.
  rewrite Hc. simpl. rewrite Hsub. simpl.
  rewrite <- app_assoc. simpl. now rewrite Hdays.
Qed.

Lemma get_domain_age_aware (entry : WhoisEntry) (T : datetime) (off : Z) (tr : trace) :
  whois_whois w d = inr entry ->
  creation_date entry = PDateTime T ->
  utcoffset T = Some off ->
  get_domain_age w d tr
  = (Return None,
     (tr ++ [EvWhois d;
             EvLog ERROR
               [Lit "An unexpected error occurred while fetching WHOIS data for ";
                Fmt (PStr d); Lit ": ";
                FmtExn (Exn TypeError
                  "can't subtract offset-naive and offset-aware datetimes")]])%list).
Proof.
  intros Hw Hc HT.
  pose proof (sub_mixed (datetime_now w) T off (datetime_now_naive w) HT) as Hsub.
  unfold get_domain_age, datetime_minus. step_M. rewrite Hw. simpl.
  rewrite Hc. simpl. rewrite Hsub. simpl.
  now rewrite <- app_assoc.
Qed.

(** Every run issues the lookup, makes one log call and returns. *)
Lemma get_domain_age_total :
  exists (r : option Z) (lvl : level) (msg : fstring),
    forall tr, get_domain_age w d tr
               = (Return r, (tr ++ [EvWhois d; EvLog lvl msg])%list).
Proof.
  unfold get_domain_age, datetime_minus, list_first. step_M.
  destruct (whois_whois w d) as [e|[cd]]; simpl.
  - destruct (is_PywhoisError e); simpl;
      do 3 eexists; intros tr; rewrite <- app_assoc; reflexivity.
  - destruct cd as [| b | z | f | s | l | m | T]; simpl.
    all: repeat case_match; simpl.
    all: do 3 eexists; intros tr; rewrite <- ?app_assoc; reflexivity.
Qed.

End GetDomainAge.

(** The resolver reads the world only through the lookup of its domain
    and through the clock. *)
Lemma get_domain_age_ext (w w' : World) (d : string) (tr : trace) :
  whois_whois w' d = whois_whois w d ->
  clock w' = clock w ->
  get_domain_age w' d tr = get_domain_age w d tr.
Proof.
  intros Hw Hc. unfold get_domain_age, datetime_now. now rewrite Hw, Hc.
Qed.

(** A list whose first element is a datetime is resolved like that
    datetime alone. *)
Lemma get_domain_age_list_head (w w1 : World) (d : string)
      (entry entry1 : WhoisEntry) (T : datetime) (rest : list pyval) (tr : trace) :
  whois_whois w d = inr entry ->
  creation_date entry = PList (PDateTime T :: rest) ->
  whois_whois w1 d = inr entry1 ->
  creation_date entry1 = PDateTime T ->
  clock w1 = clock w ->
  get_domain_age w d tr = get_domain_age w1 d tr.
Proof.
  intros Hw Hc Hw1 Hc1 Hclk.
  unfold get_domain_age, datetime_now. step_M.
  now rewrite Hw, Hw1, Hclk; simpl; rewrite Hc, Hc1.
Qed.

Lemma get_domain_age_list_none (w : World) (d : string)
      (entry : WhoisEntry) (rest : list pyval) (tr : trace) :
  whois_whois w d = inr entry ->
  creation_date entry = PList (PNone :: rest) ->
  get_domain_age w d tr
  = (Return None,
     (tr ++ [EvWhois d;
             EvLog WARNING [Lit "Could not determine creation date for ";
                            Fmt (PStr d); Lit "."]])%list).
Proof.
  intros Hw Hc. unfold get_domain_age. step_M. rewrite Hw. simpl.
  rewrite Hc. simpl. now rewrite <- app_assoc.
Qed.

(** ** The Wayback checker *)

(** A dict with a key is not the empty dict, hence truthy. *)
Lemma dict_nonempty (m : gmap string pyval) (k : string) (v : pyval) :
  m !! k = Some v -> bool_decide (m = ∅) = false.
Proof.
  intros H. case_bool_decide as Hm; [|reflexivity].
  subst m. now rewrite lookup_empty in H.
Qed.

Lemma raise_for_status_ok (r : Response) (tr : trace) :
  status_ok r -> raise_for_status r tr = (Return tt, tr).
Proof.
  intros H. unfold raise_for_status, status_ok in *.
  destruct (400 <=? status_code r) eqn:E1; destruct (status_code r <? 600) eqn:E2;
    simpl; try reflexivity; lia.
Qed.

Section CheckWayback.

Variable w : World.
Variable d : string.

(** Every run issues the request, makes one log call and returns. *)
Lemma check_wayback_machine_total :
  exists (r : pyval) (lvl : level) (msg : fstring),
    forall tr, check_wayback_machine w d tr
               = (Return r, (tr ++ [EvHttpGet (wayback_url d); EvLog lvl msg])%list).
Proof.
  unfold check_wayback_machine, wayback_url, raise_for_status, py_contains, py_getitem.
  step_M.
  destruct (requests_get w (String.append WAYBACK_ENDPOINT d)) as [e|[st js]]; simpl.
  - destruct (is_RequestException e); simpl;
      do 3 eexists; intros tr; rewrite <- app_assoc; reflexivity.
  - destruct ((400 <=? st) && (st <? 600)); simpl.
    + do 3 eexists; intros tr; rewrite <- app_assoc; reflexivity.
    + destruct js as [e|data]; simpl.
      * destruct (is_RequestException e); simpl;
          do 3 eexists; intros tr; rewrite <- app_assoc; reflexivity.
      * destruct data; simpl.
        all: repeat case_match; simpl.
        all: do 3 eexists; intros tr; rewrite <- ?app_assoc; reflexivity.
Qed.

Section WithResponse.

Variable resp : Response.
Variable data : pyval.
Hypothesis Hget : requests_get w (wayback_url d) = inr resp.
Hypothesis Hstatus : status_ok resp.
Hypothesis Hjson : json resp = inr data.

Ltac open_response :=
  unfold check_wayback_machine; fold (wayback_url d); step_M;
  rewrite Hget; simpl; rewrite (raise_for_status_ok _ _ Hstatus), Hjson; simpl.

(** The whole path [archived_snapshots.closest.url] is there. *)
Lemma check_wayback_machine_found
      (m snaps c : gmap string pyval) (v : pyval) (tr : trace) :
  data = PDict m ->
  m !! "archived_snapshots" = Some (PDict snaps) ->
  snaps !! "closest" = Some (PDict c) ->
  c !! "url" = Some v ->
  check_wayback_machine w d tr
  = (Return v,
     (tr ++ [EvHttpGet (wayback_url d);
             EvLog INFO [Lit "Oldest Wayback Machine URL for "; Fmt (PStr d);
                         Lit ": "; Fmt v]])%list).
Proof.
  intros -> Hm Hs Hc. open_response.
  rewrite (dict_nonempty _ _ _ Hm). simpl. rewrite Hm. simpl.
  rewrite (dict_nonempty _ _ _ Hs). simpl. rewrite Hs. simpl.
  rewrite Hc. simpl. now rewrite <- app_assoc.
Qed.

(** No [archived_snapshots] key. *)
Lemma check_wayback_machine_absent (m : gmap string pyval) (tr : trace) :
  data = PDict m ->
  m !! "archived_snapshots" = None ->
  fst (check_wayback_machine w d tr) = Return PNone.
Proof.
  intros -> Hm. open_response.
  destruct (negb (bool_decide (m = ∅))); simpl; [rewrite Hm|]; reflexivity.
Qed.

(** [archived_snapshots] is the empty object. *)
Lemma check_wayback_machine_empty (m : gmap string pyval) (tr : trace) :
  data = PDict m ->
  m !! "archived_snapshots" = Some (PDict ∅) ->
  fst (check_wayback_machine w d tr) = Return PNone.
Proof.
  intros -> Hm. open_response.
  rewrite (dict_nonempty _ _ _ Hm). simpl. rewrite Hm. reflexivity.
Qed.

(** [archived_snapshots] is an object without a [closest] key. *)
Lemma check_wayback_machine_no_closest
      (m snaps : gmap string pyval) (tr : trace) :
  data = PDict m ->
  m !! "archived_snapshots" = Some (PDict snaps) ->
  snaps !! "closest" = None ->
  fst (check_wayback_machine w d tr) = Return PNone.
Proof.
  intros -> Hm Hs. open_response.
  rewrite (dict_nonempty _ _ _ Hm). simpl. rewrite Hm. simpl.
  destruct (negb (bool_decide (snaps = ∅))); simpl; [rewrite Hs|]; reflexivity.
Qed.

(** A result other than [None] can only come from the whole path. *)
Lemma check_wayback_machine_some (v : pyval) (tr : trace) :
  fst (check_wayback_machine w d tr) = Return v ->
  v <> PNone ->
  exists m snaps c : gmap string pyval,
    data = PDict m /\
    m !! "archived_snapshots" = Some (PDict snaps) /\
    snaps !! "closest" = Some (PDict c) /\
    c !! "url" = Some v.
Proof.
  open_response. unfold py_contains, py_getitem. step_M.
  intros Hr Hv.
  destruct data; simpl in Hr.
  all: repeat (case_match; simpl in Hr; try congruence).
  all: try congruence.
  simplify_eq. do 3 eexists. repeat split; eassumption.
Qed.

(** [closest] is there but gives no [url]: the subscript raises
    [KeyError] on a dict and [TypeError] on anything else, and the
    last [except] clause takes it. *)
Lemma check_wayback_machine_no_url
      (m snaps : gmap string pyval) (c : pyval) (tr : trace) :
  data = PDict m ->
  m !! "archived_snapshots" = Some (PDict snaps) ->
  snaps !! "closest" = Some c ->
  (forall fields, c = PDict fields -> fields !! "url" = None) ->
  exists e,
    is_RequestException e = false /\
    check_wayback_machine w d tr
    = (Return PNone,
       (tr ++ [EvHttpGet (wayback_url d);
               EvLog ERROR
                 [Lit "An unexpected error occurred while checking the Wayback Machine for ";
                  Fmt (PStr d); Lit ": "; FmtExn e]])%list).
Proof.
  intros -> Hm Hs Hc. open_response.
  rewrite (dict_nonempty _ _ _ Hm). simpl. rewrite Hm. simpl.
  rewrite (dict_nonempty _ _ _ Hs). simpl. rewrite Hs. simpl.
  destruct c as [| b | z | f | s | l | fields | T]; simpl;
    try (eexists; split; [|rewrite <- app_assoc; reflexivity]; reflexivity).
  rewrite (Hc fields eq_refl). simpl.
  eexists; split; [|rewrite <- app_assoc; reflexivity]; reflexivity.
Qed.

End WithResponse.

(** The request itself fails. *)
Lemma check_wayback_machine_get_raises (e : exn) (tr : trace) :
  requests_get w (wayback_url d) = inl e ->
  exists msg,
    check_wayback_machine w d tr
    = (Return PNone, (tr ++ [EvHttpGet (wayback_url d); EvLog ERROR msg])%list).
Proof.
  intros Hget. unfold check_wayback_machine; fold (wayback_url d). step_M.
  rewrite Hget. simpl.
  destruct (is_RequestException e); simpl; rewrite <- app_assoc; eauto.
Qed.

(** The status is a client or server error: [raise_for_status] raises
    [HTTPError], a [RequestException]. *)
Lemma check_wayback_machine_http_error (resp : Response) (tr : trace) :
  requests_get w (wayback_url d) = inr resp ->
  400 <= status_code resp < 600 ->
  exists e,
    exn_cls e = HTTPError /\
    check_wayback_machine w d tr
    = (Return PNone,
       (tr ++ [EvHttpGet (wayback_url d);
               EvLog ERROR [Lit "Error accessing Wayback Machine for ";
                            Fmt (PStr d); Lit ": "; FmtExn e]])%list).
Proof.
  intros Hget [Hlo Hhi].
  unfold check_wayback_machine, raise_for_status; fold (wayback_url d). step_M.
  rewrite Hget. simpl.
  apply Z.leb_le in Hlo. apply Z.ltb_lt in Hhi. rewrite Hlo, Hhi. simpl.
  eexists; split; [|rewrite <- app_assoc; reflexivity]; reflexivity.
Qed.

(** The body is not JSON. *)
Lemma check_wayback_machine_json_raises (resp : Response) (e : exn) (tr : trace) :
  requests_get w (wayback_url d) = inr resp ->
  status_ok resp ->
  json resp = inl e ->
  exists msg,
    check_wayback_machine w d tr
    = (Return PNone, (tr ++ [EvHttpGet (wayback_url d); EvLog ERROR msg])%list).
Proof.
  intros Hget Hst Hjson.
  unfold check_wayback_machine; fold (wayback_url d). step_M.
  rewrite Hget. simpl. rewrite (raise_for_status_ok _ _ Hst), Hjson. simpl.
  destruct (is_RequestException e); simpl; rewrite <- app_assoc; eauto.
Qed.

End CheckWayback.

Lemma check_wayback_machine_ext (w w' : World) (d : string) (tr : trace) :
  requests_get w' (wayback_url d) = requests_get w (wayback_url d) ->
  check_wayback_machine w' d tr = check_wayback_machine w d tr.
Proof.
  intros Hg. unfold check_wayback_machine. fold (wayback_url d). now rewrite Hg.
Qed.

(** ** The entry point *)

Section IsValidDomain.

Lemma is_valid_domain_not_str (v : pyval) (tr : trace) :
  (forall s, v <> PStr s) ->
  is_valid_domain v tr
  = (Return false,
     (tr ++ [EvLog ERROR [Lit "Invalid input: Domain must be a string."]])%list).
Proof.
  intros Hv. destruct v; try reflexivity. now destruct (Hv s).
Qed.

Lemma is_valid_domain_empty (tr : trace) :
  is_valid_domain (PStr "") tr
  = (Return false,
     (tr ++ [EvLog ERROR [Lit "Invalid input: Domain cannot be empty."]])%list).
Proof. reflexivity. Qed.

Lemma is_valid_domain_space (s : string) (tr : trace) :
  s <> "" ->
  In " "%char (list_ascii_of_string s) ->
  is_valid_domain (PStr s) tr
  = (Return false,
     (tr ++ [EvLog ERROR [Lit "Invalid input: Domain cannot contain spaces."]])%list).
Proof.
  intros Hne Hin. unfold is_valid_domain, truthy.
  rewrite (eqb_empty_false _ Hne). simpl.
  apply str_contains_space in Hin. now rewrite Hin.
Qed.

Lemma is_valid_domain_ok (s : string) (tr : trace) :
  valid_domain s -> is_valid_domain (PStr s) tr = (Return true, tr).
Proof.
  intros [Hne Hsp]. unfold is_valid_domain, truthy.
  rewrite (eqb_empty_false _ Hne). simpl.
  apply str_contains_space_false in Hsp. now rewrite Hsp.
Qed.

(** A rejected value is logged once and nothing else happens. *)
Lemma is_valid_domain_rejects (v : pyval) :
  (forall s, v <> PStr s) \/ v = PStr "" \/
  (exists s, v = PStr s /\ In " "%char (list_ascii_of_string s)) ->
  exists msg, forall tr,
    is_valid_domain v tr = (Return false, (tr ++ [EvLog ERROR msg])%list).
Proof.
  intros [Hv | [-> | (s & -> & Hin)]].
  - eexists; intros tr. now apply is_valid_domain_not_str.
  - eexists; intros tr. apply is_valid_domain_empty.
  - destruct (string_dec s "") as [->|Hne].
    + eexists; intros tr. apply is_valid_domain_empty.
    + eexists; intros tr. now apply is_valid_domain_space.
Qed.

End IsValidDomain.

Section Main.

Variable w : World.
Variable args : Args.

Lemma main_invalid (msg : fstring) (tr : trace) :
  (forall tr', is_valid_domain (PStr (domain args)) tr'
               = (Return false, (tr' ++ [EvLog ERROR msg])%list)) ->
  main w args tr
  = (Exit 1, (tr ++ verbose_events args ++ [EvLog ERROR msg])%list).
Proof.
  intros Hv. unfold main, verbose_events. step_M.
  destruct (verbose args); simpl; rewrite Hv; simpl;
    rewrite <- ?app_assoc; reflexivity.
Qed.

Lemma main_valid (age : option Z) (url : pyval)
      (lvl1 lvl2 : level) (msg1 msg2 : fstring) (tr : trace) :
  valid_domain (domain args) ->
  (forall tr', get_domain_age w (domain args) tr'
               = (Return age, (tr' ++ [EvWhois (domain args); EvLog lvl1 msg1])%list)) ->
  (forall tr', check_wayback_machine w (domain args) tr'
               = (Return url,
                  (tr' ++ [EvHttpGet (wayback_url (domain args)); EvLog lvl2 msg2])%list)) ->
  main w args tr
  = (Return tt,
     (tr ++ verbose_events args ++
        [EvWhois (domain args); EvLog lvl1 msg1;
         EvPrint (age_line (domain args) age);
         EvHttpGet (wayback_url (domain args)); EvLog lvl2 msg2;
         EvPrint (wayback_line (domain args) url)])%list).
Proof.
  intros Hvalid Hage Hurl. unfold main, verbose_events, wayback_line. step_M.
  destruct (verbose args); simpl.
  all: rewrite (is_valid_domain_ok _ _ Hvalid); simpl.
  all: rewrite Hage; simpl.
  all: destruct age; simpl; rewrite Hurl; simpl.
  all: destruct (truthy url); simpl; rewrite <- ?app_assoc; reflexivity.
Qed.

End Main.

(** * Properties of the specification *)

(** C1: a domain that fails validation (not a string, empty, or with a
    space) is turned down by [is_valid_domain], and [main] then exits
    with status 1 without any WHOIS or Wayback call and without printing
    a result line. *)
Theorem invalid_domain_exits_before_queries :
  (forall (v : pyval) (tr : trace),
      rejected v -> fst (is_valid_domain v tr) = Return false) /\
  (forall (w : World) (args : Args),
      rejected (PStr (domain args)) ->
      fst (run w args) = Exit 1 /\
      exit_status (fst (run w args)) <> 0 /\
      network_calls (snd (run w args)) = [] /\
      printed (snd (run w args)) = []).
Proof.
  split.
  - intros v tr Hv. destruct (is_valid_domain_rejects v Hv) as [msg Hmsg].
    now rewrite Hmsg.
  - intros w args Hv. destruct (is_valid_domain_rejects _ Hv) as [msg Hmsg].
    unfold run. rewrite (main_invalid w args msg [] Hmsg).
    unfold verbose_events. destruct (verbose args); simpl; repeat split; discriminate.
Qed.

Lemma invalid_domain_exits_before_queries_witness :
  let w := Examples.world (inr (PDateTime Examples.T2000)) (Examples.ok Examples.archived) in
  fst (run w Examples.with_space) = Exit 1 /\
  exit_status (fst (run w Examples.with_space)) <> 0 /\
  network_calls (snd (run w Examples.with_space)) = [] /\
  printed (snd (run w Examples.with_space)) = [].
Proof.
  apply (proj2 invalid_domain_exits_before_queries).
  right; right. exists "example .com". split; [reflexivity | simpl; tauto].
Defined.

(** C2 as stated fails when the timestamp is timezone-aware: the
    subtraction from the naive [datetime.now()] raises and the resolver
    answers [None] instead of the 7305 whole days that have elapsed. *)
Lemma age_of_past_timestamp_counterexample :
  let w := Examples.world (inr (PDateTime Examples.T2000_utc))
                          (Examples.ok Examples.archived) in
  to_microseconds Examples.T2000_utc < to_microseconds (datetime_now w) /\
  (to_microseconds (datetime_now w) - to_microseconds Examples.T2000_utc)
    / MICROSECONDS_PER_DAY = 7305 /\
  fst (get_domain_age w "example.com" []) = Return None /\
  fst (get_domain_age w "example.com" []) <> Return (Some 7305).
Proof.
  vm_compute. repeat split; discriminate.
Qed.

(** C2 (amended): when the creation date is a single timezone-naive
    timestamp [T] in the past and the clock shows [now], the resolver
    returns the floor of [now - T] in days. *)
Theorem age_of_past_naive_timestamp
        (w : World) (d : string) (entry : WhoisEntry) (T : datetime) (tr : trace) :
  whois_whois w d = inr entry ->
  creation_date entry = PDateTime T ->
  utcoffset T = None ->
  to_microseconds T <= to_microseconds (datetime_now w) ->
  fst (get_domain_age w d tr)
  = Return (Some ((to_microseconds (datetime_now w) - to_microseconds T)
                  / MICROSECONDS_PER_DAY)).
Proof.
  intros Hw Hc HT _. now rewrite (get_domain_age_naive w d entry T tr Hw Hc HT).
Qed.

Lemma age_of_past_naive_timestamp_witness :
  fst (get_domain_age (Examples.world (inr (PDateTime Examples.T2000))
                                      (Examples.ok Examples.archived))
                      "example.com" [])
  = Return (Some 7305).
Proof.
  apply (age_of_past_naive_timestamp
           (Examples.world (inr (PDateTime Examples.T2000)) (Examples.ok Examples.archived))
           "example.com" {| creation_date := PDateTime Examples.T2000 |} Examples.T2000 []);
    [reflexivity | reflexivity | reflexivity | vm_compute; discriminate].
Defined.

(** C3: when [creation_date] is a list of timestamps, the resolver
    answers as it does for the first element alone, whatever follows it;
    a first element that is [None] gives [None], and so does a list
    without a first element. *)
Theorem first_creation_date_is_canonical :
  (forall (w w1 : World) (d : string) (entry entry1 : WhoisEntry)
          (first : option datetime) (rest : list pyval) (tr : trace),
      whois_whois w d = inr entry ->
      creation_date entry = PList (date_item first :: rest) ->
      whois_whois w1 d = inr entry1 ->
      creation_date entry1 = date_item first ->
      clock w1 = clock w ->
      fst (get_domain_age w d tr) = fst (get_domain_age w1 d tr) /\
      (first = None -> fst (get_domain_age w d tr) = Return None)) /\
  (forall (w : World) (d : string) (entry : WhoisEntry) (tr : trace),
      whois_whois w d = inr entry ->
      creation_date entry = PList [] ->
      fst (get_domain_age w d tr) = Return None).
Proof.
  split.
  - intros w w1 d entry entry1 first rest tr Hw Hc Hw1 Hc1 Hclk.
    destruct first as [T|]; simpl in *.
    + split; [|discriminate].
      now rewrite (get_domain_age_list_head w w1 d entry entry1 T rest tr).
    + rewrite (get_domain_age_list_none w d entry rest tr Hw Hc).
      rewrite (get_domain_age_no_creation_date w1 d entry1 tr Hw1)
        by now rewrite Hc1.
      split; reflexivity.
  - intros w d entry tr Hw Hc.
    rewrite (get_domain_age_no_creation_date w d entry tr Hw) by now rewrite Hc.
    reflexivity.
Qed.

Lemma first_creation_date_is_canonical_witness :
  let w := Examples.world (inr (PList [PDateTime Examples.T1995; PDateTime Examples.T2000]))
                          (Examples.ok Examples.archived) in
  let w1 := Examples.world (inr (PDateTime Examples.T1995)) (Examples.ok Examples.archived) in
  fst (get_domain_age w "example.com" []) = Return (Some 8906) /\
  fst (get_domain_age w "example.com" []) = fst (get_domain_age w1 "example.com" []).
Proof.
  split; [reflexivity|].
  apply (proj1 first_creation_date_is_canonical
           (Examples.world (inr (PList [PDateTime Examples.T1995; PDateTime Examples.T2000]))
                           (Examples.ok Examples.archived))
           (Examples.world (inr (PDateTime Examples.T1995)) (Examples.ok Examples.archived))
           "example.com"
           {| creation_date := PList [PDateTime Examples.T1995; PDateTime Examples.T2000] |}
           {| creation_date := PDateTime Examples.T1995 |}
           (Some Examples.T1995) [PDateTime Examples.T2000] []);
    reflexivity.
Defined.

(** C4 as stated fails on a body whose [archived_snapshots] is a
    non-empty object with a [closest] key when [closest] holds no
    [url]: the checker returns [None], not a string. *)
Lemma wayback_closest_key_counterexample :
  let w := Examples.world (inr PNone) (Examples.ok Examples.archived_no_url) in
  (exists (m snaps : gmap string pyval) (c : pyval),
      Examples.archived_no_url = PDict m /\
      m !! "archived_snapshots" = Some (PDict snaps) /\
      snaps <> ∅ /\
      snaps !! "closest" = Some c) /\
  fst (check_wayback_machine w "example.com" []) = Return PNone /\
  (forall u : string,
      fst (check_wayback_machine w "example.com" []) <> Return (PStr u)).
Proof.
  split; [|split].
  - exists (Examples.body_of (PDict (Examples.snapshots_of Examples.closest_without_url))),
           (Examples.snapshots_of Examples.closest_without_url),
           Examples.closest_without_url.
    repeat split; try reflexivity.
    intros H. apply (f_equal (fun m : gmap string pyval => m !! "closest")) in H.
    vm_compute in H. discriminate.
  - reflexivity.
  - intros u. vm_compute. discriminate.
Qed.

(** C4 (amended): for a response that passes the status check and
    parses as JSON, the checker returns the string [u] exactly when the
    body is an object whose [archived_snapshots] is a non-empty object
    with a [closest] key whose value is an object holding [u] under
    [url]; it returns [None] when [archived_snapshots] is absent, is the
    empty object, or has no [closest] key. *)
Theorem wayback_returns_closest_url
        (w : World) (d : string) (resp : Response) (data : pyval) (tr : trace) :
  requests_get w (wayback_url d) = inr resp ->
  status_ok resp ->
  json resp = inr data ->
  (forall u : string,
      fst (check_wayback_machine w d tr) = Return (PStr u) <->
      exists m snaps c : gmap string pyval,
        data = PDict m /\
        m !! "archived_snapshots" = Some (PDict snaps) /\
        snaps <> ∅ /\
        snaps !! "closest" = Some (PDict c) /\
        c !! "url" = Some (PStr u)) /\
  (forall m : gmap string pyval,
      data = PDict m ->
      m !! "archived_snapshots" = None \/
      m !! "archived_snapshots" = Some (PDict ∅) \/
      (exists snaps, m !! "archived_snapshots" = Some (PDict snaps) /\
                     snaps !! "closest" = None) ->
      fst (check_wayback_machine w d tr) = Return PNone).
Proof.
  intros Hget Hst Hjson. split.
  - intros u. split.
    + intros Hr.
      destruct (check_wayback_machine_some w d resp data Hget Hst Hjson (PStr u) tr Hr)
        as (m & snaps & c & Hd & Hm & Hs & Hc); [discriminate|].
      exists m, snaps, c. repeat split; try assumption.
      intros ->. now rewrite lookup_empty in Hs.
    + intros (m & snaps & c & Hd & Hm & _ & Hs & Hc).
      now rewrite (check_wayback_machine_found w d resp data Hget Hst Hjson
                     m snaps c (PStr u) tr Hd Hm Hs Hc).
  - intros m Hd [Hm | [Hm | (snaps & Hm & Hs)]].
    + exact (check_wayback_machine_absent w d resp data Hget Hst Hjson m tr Hd Hm).
    + exact (check_wayback_machine_empty w d resp data Hget Hst Hjson m tr Hd Hm).
    + exact (check_wayback_machine_no_closest w d resp data Hget Hst Hjson
               m snaps tr Hd Hm Hs).
Qed.

Lemma wayback_returns_closest_url_witness :
  fst (check_wayback_machine
         (Examples.world (inr PNone) (Examples.ok Examples.archived)) "example.com" [])
  = Return (PStr Examples.snapshot_url).
Proof.
  apply (proj1 (wayback_returns_closest_url
                  (Examples.world (inr PNone) (Examples.ok Examples.archived))
                  "example.com"
                  {| status_code := 200; json := inr Examples.archived |}
                  Examples.archived []
                  eq_refl (or_introl eq_refl) eq_refl)).
  exists (Examples.body_of (PDict (Examples.snapshots_of Examples.closest_with_url))),
         (Examples.snapshots_of Examples.closest_with_url),
         {[ "url" := PStr Examples.snapshot_url ]}.
  repeat split; try reflexivity.
  intros H. apply (f_equal (fun m : gmap string pyval => m !! "closest")) in H.
  vm_compute in H. discriminate.
Defined.

(** C5: a lookup that raises, whether [PywhoisError] or any other
    exception, makes the resolver return [None]; so does a record
    without a creation date; and no run of the resolver ever raises. *)
Theorem whois_failures_collapse_to_none :
  (forall (w : World) (d : string) (e : exn) (tr : trace),
      whois_whois w d = inl e ->
      fst (get_domain_age w d tr) = Return None) /\
  (forall (w : World) (d : string) (entry : WhoisEntry) (tr : trace),
      whois_whois w d = inr entry ->
      truthy (creation_date entry) = false ->
      fst (get_domain_age w d tr) = Return None) /\
  (forall (w : World) (d : string) (tr : trace),
      exists r : option Z, fst (get_domain_age w d tr) = Return r).
Proof.
  repeat split.
  - intros w d e tr Hw.
    destruct (get_domain_age_lookup_raises w d e tr Hw) as [msg Hr]. now rewrite Hr.
  - intros w d entry tr Hw Hc.
    now rewrite (get_domain_age_no_creation_date w d entry tr Hw Hc).
  - intros w d tr. destruct (get_domain_age_total w d) as (r & lvl & msg & Hr).
    exists r. now rewrite Hr.
Qed.

Lemma whois_failures_collapse_to_none_witness :
  fst (get_domain_age (Examples.world (inl Examples.no_match) (Examples.ok Examples.archived))
                      "example.com" []) = Return None /\
  fst (get_domain_age (Examples.world (inl Examples.connection_refused)
                                      (Examples.ok Examples.archived))
                      "example.com" []) = Return None /\
  fst (get_domain_age (Examples.world (inr PNone) (Examples.ok Examples.archived))
                      "example.com" []) = Return None.
Proof.
  destruct whois_failures_collapse_to_none as (Hraise & Hmissing & _).
  split; [|split].
  - now apply (Hraise _ _ Examples.no_match).
  - now apply (Hraise _ _ Examples.connection_refused).
  - now apply (Hmissing _ _ {| creation_date := PNone |}).
Defined.

(** C6: a response with a 4xx or 5xx status, a request that fails
    outright and a body that does not parse all make the checker return
    [None]; and no run of the checker ever raises. *)
Theorem wayback_failures_give_none :
  (forall (w : World) (d : string) (resp : Response) (tr : trace),
      requests_get w (wayback_url d) = inr resp ->
      400 <= status_code resp < 600 ->
      fst (check_wayback_machine w d tr) = Return PNone) /\
  (forall (w : World) (d : string) (e : exn) (tr : trace),
      requests_get w (wayback_url d) = inl e ->
      fst (check_wayback_machine w d tr) = Return PNone) /\
  (forall (w : World) (d : string) (resp : Response) (e : exn) (tr : trace),
      requests_get w (wayback_url d) = inr resp ->
      status_ok resp ->
      json resp = inl e ->
      fst (check_wayback_machine w d tr) = Return PNone) /\
  (forall (w : World) (d : string) (tr : trace),
      exists r : pyval, fst (check_wayback_machine w d tr) = Return r).
Proof.
  repeat split.
  - intros w d resp tr Hget Hst.
    destruct (check_wayback_machine_http_error w d resp tr Hget Hst) as (e & _ & Hr).
    now rewrite Hr.
  - intros w d e tr Hget.
    destruct (check_wayback_machine_get_raises w d e tr Hget) as [msg Hr]. now rewrite Hr.
  - intros w d resp e tr Hget Hst Hjson.
    destruct (check_wayback_machine_json_raises w d resp e tr Hget Hst Hjson) as [msg Hr].
    now rewrite Hr.
  - intros w d tr. destruct (check_wayback_machine_total w d) as (r & lvl & msg & Hr).
    exists r. now rewrite Hr.
Qed.

Lemma wayback_failures_give_none_witness :
  fst (check_wayback_machine
         (Examples.world (inr PNone)
            (inr {| status_code := 500; json := inr Examples.archived |}))
         "example.com" []) = Return PNone /\
  fst (check_wayback_machine
         (Examples.world (inr PNone) (inl Examples.connection_refused))
         "example.com" []) = Return PNone /\
  fst (check_wayback_machine
         (Examples.world (inr PNone)
            (inr {| status_code := 200;
                    json := inl (Exn RequestsJSONDecodeError "Expecting value") |}))
         "example.com" []) = Return PNone.
Proof.
  destruct wayback_failures_give_none as (Hstatus & Hget & Hjson & _).
  split; [|split].
  - apply (Hstatus _ _ {| status_code := 500; json := inr Examples.archived |});
      [reflexivity | simpl; lia].
  - now apply (Hget _ _ Examples.connection_refused).
  - apply (Hjson _ _ {| status_code := 200;
                        json := inl (Exn RequestsJSONDecodeError "Expecting value") |}
                 (Exn RequestsJSONDecodeError "Expecting value"));
      [reflexivity | left; reflexivity | reflexivity].
Defined.

(** C8: a timezone-aware creation date cannot be subtracted from the
    naive [datetime.now()]; the [TypeError] is taken by the last
    [except] clause, which logs it, and the resolver returns [None]. *)
Theorem aware_creation_date_gives_none
        (w : World) (d : string) (entry : WhoisEntry) (T : datetime) (off : Z)
        (tr : trace) :
  whois_whois w d = inr entry ->
  creation_date entry = PDateTime T ->
  utcoffset T = Some off ->
  utcoffset (datetime_now w) = None /\
  exists e,
    exn_cls e = TypeError /\
    is_PywhoisError e = false /\
    get_domain_age w d tr
    = (Return None,
       (tr ++ [EvWhois d;
               EvLog ERROR
                 [Lit "An unexpected error occurred while fetching WHOIS data for ";
                  Fmt (PStr d); Lit ": "; FmtExn e]])%list).
Proof.
  intros Hw Hc HT. split; [reflexivity|].
  eexists. split; [|split; [|exact (get_domain_age_aware w d entry T off tr Hw Hc HT)]];
    reflexivity.
Qed.

Lemma aware_creation_date_gives_none_witness :
  fst (get_domain_age
         (Examples.world (inr (PDateTime Examples.T2000_utc)) (Examples.ok Examples.archived))
         "example.com" []) = Return None.
Proof.
  destruct (aware_creation_date_gives_none
              (Examples.world (inr (PDateTime Examples.T2000_utc))
                              (Examples.ok Examples.archived))
              "example.com" {| creation_date := PDateTime Examples.T2000_utc |}
              Examples.T2000_utc 0 [] eq_refl eq_refl eq_refl)
    as (_ & e & _ & _ & Hr).
  now rewrite Hr.
Defined.

(** C9: when [closest] is present but holds no [url], the subscript
    raises, the last [except] clause (not the [RequestException] one)
    logs the error, and the checker returns [None]. *)
Theorem closest_without_url_gives_none
        (w : World) (d : string) (resp : Response)
        (m snaps : gmap string pyval) (c : pyval) (tr : trace) :
  requests_get w (wayback_url d) = inr resp ->
  status_ok resp ->
  json resp = inr (PDict m) ->
  m !! "archived_snapshots" = Some (PDict snaps) ->
  snaps !! "closest" = Some c ->
  (forall fields, c = PDict fields -> fields !! "url" = None) ->
  exists e,
    is_RequestException e = false /\
    check_wayback_machine w d tr
    = (Return PNone,
       (tr ++ [EvHttpGet (wayback_url d);
               EvLog ERROR
                 [Lit "An unexpected error occurred while checking the Wayback Machine for ";
                  Fmt (PStr d); Lit ": "; FmtExn e]])%list).
Proof.
  intros Hget Hst Hjson Hm Hs Hc.
  exact (check_wayback_machine_no_url w d resp (PDict m) Hget Hst Hjson
           m snaps c tr eq_refl Hm Hs Hc).
Qed.

Lemma closest_without_url_gives_none_witness :
  fst (check_wayback_machine
         (Examples.world (inr PNone) (Examples.ok Examples.archived_no_url))
         "example.com" []) = Return PNone.
Proof.
  destruct (closest_without_url_gives_none
              (Examples.world (inr PNone) (Examples.ok Examples.archived_no_url))
              "example.com"
              {| status_code := 200; json := inr Examples.archived_no_url |}
              (Examples.body_of (PDict (Examples.snapshots_of Examples.closest_without_url)))
              (Examples.snapshots_of Examples.closest_without_url)
              Examples.closest_without_url []
              eq_refl (or_introl eq_refl) eq_refl eq_refl eq_refl)
    as (e & _ & Hr).
  - intros fields Hf. injection Hf as <-. reflexivity.
  - now rewrite Hr.
Defined.

(** Shape of a run of [main] on a valid domain. *)
Lemma run_valid (w : World) (args : Args) :
  valid_domain (domain args) ->
  exists (age : option Z) (url : pyval) (lvl1 lvl2 : level) (msg1 msg2 : fstring),
    (forall tr, get_domain_age w (domain args) tr
                = (Return age, (tr ++ [EvWhois (domain args); EvLog lvl1 msg1])%list)) /\
    (forall tr, check_wayback_machine w (domain args) tr
                = (Return url,
                   (tr ++ [EvHttpGet (wayback_url (domain args)); EvLog lvl2 msg2])%list)) /\
    run w args
    = (Return tt,
       (verbose_events args ++
          [EvWhois (domain args); EvLog lvl1 msg1;
           EvPrint (age_line (domain args) age);
           EvHttpGet (wayback_url (domain args)); EvLog lvl2 msg2;
           EvPrint (wayback_line (domain args) url)])%list).
Proof.
  intros Hvalid.
  destruct (get_domain_age_total w (domain args)) as (age & lvl1 & msg1 & Hage).
  destruct (check_wayback_machine_total w (domain args)) as (url & lvl2 & msg2 & Hurl).
  exists age, url, lvl1, lvl2, msg1, msg2. repeat split; try assumption.
  unfold run. now rewrite (main_valid w args age url lvl1 lvl2 msg1 msg2 [] Hvalid Hage Hurl).
Qed.

(** C7: on a valid domain [main] runs both queries, in order, prints
    one line for each answer and exits with status 0, however the
    queries end.  The line of each query is fixed by that query alone:
    changing the other collaborator leaves it as it is. *)
Theorem valid_domain_runs_both_queries (w : World) (args : Args) :
  valid_domain (domain args) ->
  exists (age : option Z) (url : pyval),
    fst (get_domain_age w (domain args) []) = Return age /\
    fst (check_wayback_machine w (domain args) []) = Return url /\
    fst (run w args) = Return tt /\
    exit_status (fst (run w args)) = 0 /\
    network_calls (snd (run w args))
    = [EvWhois (domain args); EvHttpGet (wayback_url (domain args))] /\
    printed (snd (run w args))
    = [age_line (domain args) age; wayback_line (domain args) url] /\
    (forall w' : World,
        whois_whois w' (domain args) = whois_whois w (domain args) ->
        clock w' = clock w ->
        exists other, printed (snd (run w' args))
                      = [age_line (domain args) age; other]) /\
    (forall w' : World,
        requests_get w' (wayback_url (domain args))
        = requests_get w (wayback_url (domain args)) ->
        exists other, printed (snd (run w' args))
                      = [other; wayback_line (domain args) url]).
Proof.
  intros Hvalid.
  destruct (run_valid w args Hvalid)
    as (age & url & lvl1 & lvl2 & msg1 & msg2 & Hage & Hurl & Hrun).
  exists age, url. rewrite Hrun, Hage, Hurl.
  split; [reflexivity|]. split; [reflexivity|]. split; [reflexivity|].
  split; [reflexivity|].
  split; [unfold verbose_events; destruct (verbose args); reflexivity|].
  split; [unfold verbose_events; destruct (verbose args); reflexivity|].
  split.
  - intros w' Hw Hc.
    destruct (run_valid w' args Hvalid)
      as (age' & url' & lvl1' & lvl2' & msg1' & msg2' & Hage' & _ & Hrun').
    pose proof (get_domain_age_ext w w' (domain args) [] Hw Hc) as Heq.
    rewrite Hage, Hage' in Heq. injection Heq as -> _ _.
    exists (wayback_line (domain args) url'). rewrite Hrun'.
    unfold verbose_events; destruct (verbose args); reflexivity.
  - intros w' Hg.
    destruct (run_valid w' args Hvalid)
      as (age' & url' & lvl1' & lvl2' & msg1' & msg2' & _ & Hurl' & Hrun').
    pose proof (check_wayback_machine_ext w w' (domain args) [] Hg) as Heq.
    rewrite Hurl, Hurl' in Heq. injection Heq as -> _ _.
    exists (age_line (domain args) age'). rewrite Hrun'.
    unfold verbose_events; destruct (verbose args); reflexivity.
Qed.

Lemma valid_example_com : valid_domain "example.com".
Proof.
  split; [discriminate|]. simpl.
  intros H. repeat (destruct H as [H|H]; [discriminate|]). exact H.
Qed.

Lemma valid_domain_runs_both_queries_witness :
  let w := Examples.world (inl Examples.no_match) (inl Examples.connection_refused) in
  exists (age : option Z) (url : pyval),
    fst (get_domain_age w "example.com" []) = Return age /\
    fst (check_wayback_machine w "example.com" []) = Return url /\
    fst (run w Examples.example_com) = Return tt /\
    exit_status (fst (run w Examples.example_com)) = 0 /\
    network_calls (snd (run w Examples.example_com))
    = [EvWhois "example.com"; EvHttpGet (wayback_url "example.com")] /\
    printed (snd (run w Examples.example_com))
    = [age_line "example.com" age; wayback_line "example.com" url] /\
    (forall w' : World,
        whois_whois w' "example.com" = whois_whois w "example.com" ->
        clock w' = clock w ->
        exists other, printed (snd (run w' Examples.example_com))
                      = [age_line "example.com" age; other]) /\
    (forall w' : World,
        requests_get w' (wayback_url "example.com")
        = requests_get w (wayback_url "example.com") ->
        exists other, printed (snd (run w' Examples.example_com))
                      = [other; wayback_line "example.com" url]).
Proof.
  exact (valid_domain_runs_both_queries
           (Examples.world (inl Examples.no_match) (inl Examples.connection_refused))
           Examples.example_com valid_example_com).
Defined.

(** C10: a naive creation date later than [now] gives a negative
    number of days, floored and not clamped, and [main] prints that
    number as the age of the domain. *)
Theorem future_creation_date_gives_negative_age
        (w : World) (args : Args) (entry : WhoisEntry) (T : datetime) :
  valid_domain (domain args) ->
  whois_whois w (domain args) = inr entry ->
  creation_date entry = PDateTime T ->
  utcoffset T = None ->
  to_microseconds (datetime_now w) < to_microseconds T ->
  exists n : Z,
    n < 0 /\
    n = (to_microseconds (datetime_now w) - to_microseconds T) / MICROSECONDS_PER_DAY /\
    fst (get_domain_age w (domain args) []) = Return (Some n) /\
    head (printed (snd (run w args)))
    = Some [Lit "Domain "; Fmt (PStr (domain args)); Lit " is "; Fmt (PInt n);
            Lit " days old."].
Proof.
  intros Hvalid Hw Hc HT Hlt.
  set (n := (to_microseconds (datetime_now w) - to_microseconds T) / MICROSECONDS_PER_DAY).
  exists n. split; [|split; [reflexivity|]].
  - apply Z.div_lt_upper_bound; unfold MICROSECONDS_PER_DAY; lia.
  - pose proof (get_domain_age_naive w (domain args) entry T) as Hage.
    specialize (fun tr => Hage tr Hw Hc HT). fold n in Hage.
    split; [now rewrite Hage|].
    destruct (check_wayback_machine_total w (domain args)) as (url & lvl2 & msg2 & Hurl).
    unfold run.
    rewrite (main_valid w args (Some n) url _ _ _ _ [] Hvalid Hage Hurl).
    unfold verbose_events; destruct (verbose args); reflexivity.
Qed.

Lemma future_creation_date_gives_negative_age_witness :
  let w := Examples.world (inr (PDateTime Examples.T2021)) (Examples.ok Examples.archived) in
  fst (get_domain_age w "example.com" []) = Return (Some (-366)) /\
  (render <$> head (printed (snd (run w Examples.example_com))))
  = Some (Some "Domain example.com is -366 days old.").
Proof.
  destruct (future_creation_date_gives_negative_age
              (Examples.world (inr (PDateTime Examples.T2021)) (Examples.ok Examples.archived))
              Examples.example_com {| creation_date := PDateTime Examples.T2021 |}
              Examples.T2021 valid_example_com eq_refl eq_refl eq_refl eq_refl)
    as (n & _ & Hn & Hage & Hline).
  vm_compute in Hn. subst n. split; [exact Hage|].
  rewrite Hline. reflexivity.
Defined.

(** * Sample runs *)

(** A creation date exactly 3650 days before [now] and an archived
    domain: both lines are printed in full. *)
Example run_example_com :
  let w := Examples.world (inr (PDateTime Examples.T2010)) (Examples.ok Examples.archived) in
  fst (run w Examples.example_com) = Return tt /\
  map render (printed (snd (run w Examples.example_com)))
  = [Some "Domain example.com is 3650 days old.";
     Some "Oldest Wayback Machine URL for example.com: http://web.archive.org/web/20010101000000/example.com"].
Proof. split; reflexivity. Qed.

(** Both queries fail: the two fallback lines are printed and the run
    still ends normally. *)
Example run_both_fail :
  let w := Examples.world (inl Examples.no_match) (inl Examples.connection_refused) in
  exit_status (fst (run w Examples.example_com)) = 0 /\
  map render (printed (snd (run w Examples.example_com)))
  = [Some "Could not determine the age of domain example.com.";
     Some "Domain example.com not found in the Wayback Machine."].
Proof. split; reflexivity. Qed.

(** The body [{}] and a body whose [archived_snapshots] is [{}]. *)
Example run_not_archived :
  fst (check_wayback_machine
         (Examples.world (inr PNone) (Examples.ok Examples.empty_body)) "example.com" [])
  = Return PNone /\
  fst (check_wayback_machine
         (Examples.world (inr PNone) (Examples.ok Examples.never_archived)) "example.com" [])
  = Return PNone.
Proof. split; reflexivity. Qed.

(** * Further properties of the code *)

(** ** Helpers *)

Lemma valid_or_rejected (s : string) : valid_domain s \/ rejected (PStr s).
Proof.
  destruct (string_dec s "") as [->|Hne]; [right; right; now left|].
  destruct (in_dec ascii_dec " "%char (list_ascii_of_string s)) as [Hin|Hnin].
  - right; right; right. now exists s.
  - left. now split.
Qed.

Lemma valid_not_rejected (s : string) : valid_domain s -> ~ rejected (PStr s).
Proof.
  intros [Hne Hsp] [Hv | [Hv | (s' & Hv & Hin)]].
  - now apply (Hv s).
  - injection Hv as ->. now apply Hne.
  - injection Hv as <-. now apply Hsp.
Qed.

(** ** The validator *)

(** X1: [is_valid_domain] answers [True] exactly for a non-empty string
    without a space character; it then logs nothing; and whatever the
    value, it answers with a boolean and never raises. *)
Theorem is_valid_domain_accepts_iff (v : pyval) (tr : trace) :
  (fst (is_valid_domain v tr) = Return true <->
   exists s, v = PStr s /\ valid_domain s) /\
  (fst (is_valid_domain v tr) = Return true -> snd (is_valid_domain v tr) = tr) /\
  (fst (is_valid_domain v tr) = Return true \/
   fst (is_valid_domain v tr) = Return false).
Proof.
  assert (Hcases : (exists s, v = PStr s /\ valid_domain s) \/ rejected v).
  { destruct v; try (right; left; intros s' H; discriminate).
    destruct (valid_or_rejected s) as [Hv|Hr]; [left; now exists s | now right]. }
  destruct Hcases as [(s & -> & Hvalid) | Hrej].
  - rewrite (is_valid_domain_ok s tr Hvalid). simpl.
    repeat split; try tauto. intros _. now exists s.
  - destruct (is_valid_domain_rejects v Hrej) as [msg Hmsg]. rewrite Hmsg. simpl.
    split; [|split; [discriminate | now right]].
    split; [discriminate|].
    intros (s & -> & Hvalid). now destruct (valid_not_rejected s Hvalid).
Qed.

Lemma is_valid_domain_accepts_iff_witness :
  is_valid_domain (PStr "sub.example.com") [] = (Return true, []).
Proof.
  pose proof (is_valid_domain_accepts_iff (PStr "sub.example.com") []) as (Hiff & Hsnd & _).
  assert (H : fst (is_valid_domain (PStr "sub.example.com") []) = Return true).
  { apply Hiff. exists "sub.example.com". split; [reflexivity|].
    split; [discriminate|]. simpl.
    intros H. repeat (destruct H as [H|H]; [discriminate|]). exact H. }
  specialize (Hsnd H).
  destruct (is_valid_domain (PStr "sub.example.com") []) as [o t]. simpl in *.
  now subst.
Defined.

(** ** The resolver *)



(** X3: missing data gives [None] with a warning, and the warning tells
    where the date was missing: a falsy [creation_date] field (absent,
    [None], empty list, empty string) is reported as not found, a list
    whose first element is falsy as not determined -- and the later
    elements of such a list are not tried. *)
Theorem missing_creation_date_warnings :
  (forall (w : World) (d : string) (entry : WhoisEntry) (tr : trace),
      whois_whois w d = inr entry ->
      truthy (creation_date entry) = false ->
      get_domain_age w d tr
      = (Return None,
         (tr ++ [EvWhois d;
                 EvLog WARNING [Lit "No creation date found in WHOIS data for ";
                                Fmt (PStr d); Lit "."]])%list)) /\
  (forall (w : World) (d : string) (entry : WhoisEntry)
          (v : pyval) (rest : list pyval) (tr : trace),
      whois_whois w d = inr entry ->
      creation_date entry = PList (v :: rest) ->
      truthy v = false ->
      get_domain_age w d tr
      = (Return None,
         (tr ++ [EvWhois d;
                 EvLog WARNING [Lit "Could not determine creation date for ";
                                Fmt (PStr d); Lit "."]])%list)).
Proof.
  split.
  - intros w d entry tr Hw Hc. exact (get_domain_age_no_creation_date w d entry tr Hw Hc).
  - intros w d [cd] v rest tr Hw Hc Ht. simpl in *. subst cd.
    unfold get_domain_age. step_M. rewrite Hw. simpl. rewrite Ht. simpl.
    now rewrite <- app_assoc.
Qed.

Lemma missing_creation_date_warnings_witness :
  fst (get_domain_age
         (Examples.world (inr (PList [])) (Examples.ok Examples.archived))
         "example.com" []) = Return None /\
  fst (get_domain_age
         (Examples.world (inr (PList [PStr ""; PDateTime Examples.T2000]))
                         (Examples.ok Examples.archived))
         "example.com" []) = Return None.
Proof.
  destruct missing_creation_date_warnings as [Hfield Hhead].
  split.
  - rewrite (Hfield _ "example.com" {| creation_date := PList [] |} []); reflexivity.
  - rewrite (Hhead _ "example.com"
               {| creation_date := PList [PStr ""; PDateTime Examples.T2000] |}
               (PStr "") [PDateTime Examples.T2000] []); reflexivity.
Defined.

(** X4: every run of the resolver issues exactly one WHOIS lookup, for
    the domain it was given, then makes exactly one log call, and
    returns; it prints nothing and sends no HTTP request.  An age comes
    with an INFO record, and [None] never comes silently: it comes with
    a WARNING or an ERROR record. *)
Theorem get_domain_age_one_lookup_one_log (w : World) (d : string) :
  exists (r : option Z) (lvl : level) (msg : fstring),
    (forall tr, get_domain_age w d tr
                = (Return r, (tr ++ [EvWhois d; EvLog lvl msg])%list)) /\
    match r with
    | Some _ => lvl = INFO
    | None => lvl = WARNING \/ lvl = ERROR
    end.
Proof.
  unfold get_domain_age, datetime_minus, list_first. step_M.
  destruct (whois_whois w d) as [e|[cd]]; simpl.
  - destruct (is_PywhoisError e); simpl;
      do 3 eexists; (split; [intros tr; rewrite <- app_assoc; reflexivity|]);
      simpl; now right.
  - destruct cd as [| b | z | f | s | l | m | T]; simpl.
    all: repeat case_match; simpl.
    all: do 3 eexists;
      (split; [intros tr; rewrite <- ?app_assoc; reflexivity|]); simpl;
      first [reflexivity | now left | now right].
Qed.

(** X5: how a failed lookup is logged depends on the class of the
    exception: a [PywhoisError] is reported as a failed WHOIS query,
    any other exception as an unexpected error; both at ERROR level,
    both with the text of the exception. *)
Theorem whois_failure_log_by_class
        (w : World) (d : string) (e : exn) (tr : trace) :
  whois_whois w d = inl e ->
  get_domain_age w d tr
  = (Return None,
     (tr ++ [EvWhois d;
             EvLog ERROR
               (if is_PywhoisError e
                then [Lit "WHOIS query failed for "; Fmt (PStr d); Lit ": "; FmtExn e]
                else [Lit "An unexpected error occurred while fetching WHOIS data for ";
                      Fmt (PStr d); Lit ": "; FmtExn e])])%list).
Proof.
  intros Hw. unfold get_domain_age. step_M. rewrite Hw. simpl.
  destruct (is_PywhoisError e); simpl; now rewrite <- app_assoc.
Qed.

Lemma whois_failure_log_by_class_witness :
  map (fun ev => match ev with EvLog _ msg => render msg | _ => None end)
      (snd (get_domain_age
              (Examples.world (inl Examples.no_match) (Examples.ok Examples.archived))
              "example.com" []))
  = [None; Some "WHOIS query failed for example.com: No match for domain"].
Proof.
  rewrite (whois_failure_log_by_class
             (Examples.world (inl Examples.no_match) (Examples.ok Examples.archived))
             "example.com" Examples.no_match [] eq_refl).
  reflexivity.
Defined.

(** X6: for a naive creation date the age [n] counts the whole days
    elapsed: [n] days have passed and [n + 1] days have not.  So the age
    is non-negative exactly for a date that is not later than [now], and
    it is 0 exactly during the first 24 hours. *)
Theorem age_counts_whole_days
        (w : World) (d : string) (entry : WhoisEntry) (T : datetime) (tr : trace) :
  whois_whois w d = inr entry ->
  creation_date entry = PDateTime T ->
  utcoffset T = None ->
  exists n : Z,
    fst (get_domain_age w d tr) = Return (Some n) /\
    n * MICROSECONDS_PER_DAY
    <= to_microseconds (datetime_now w) - to_microseconds T
    < (n + 1) * MICROSECONDS_PER_DAY /\
    (0 <= n <-> to_microseconds T <= to_microseconds (datetime_now w)) /\
    (n = 0 <->
     0 <= to_microseconds (datetime_now w) - to_microseconds T < MICROSECONDS_PER_DAY).
Proof.
  intros Hw Hc HT.
  rewrite (get_domain_age_naive w d entry T tr Hw Hc HT). simpl.
  set (elapsed := to_microseconds (datetime_now w) - to_microseconds T).
  exists (elapsed / MICROSECONDS_PER_DAY). split; [reflexivity|].
  unfold MICROSECONDS_PER_DAY. change (86400 * 1000000) with 86400000000.
  pose proof (Z.div_mod elapsed 86400000000 ltac:(lia)) as Hdm.
  pose proof (Z.mod_pos_bound elapsed 86400000000 ltac:(lia)) as Hmod.
  fold elapsed. repeat split; lia.
Qed.

Lemma age_counts_whole_days_witness :
  exists n : Z,
    fst (get_domain_age
           (Examples.world (inr (PDateTime Examples.T2010)) (Examples.ok Examples.archived))
           "example.com" []) = Return (Some n) /\
    n = 3650.
Proof.
  destruct (age_counts_whole_days
              (Examples.world (inr (PDateTime Examples.T2010)) (Examples.ok Examples.archived))
              "example.com" {| creation_date := PDateTime Examples.T2010 |}
              Examples.T2010 [] eq_refl eq_refl eq_refl)
    as (n & Hr & Hbounds & _).
  exists n. split; [exact Hr|].
  change (to_microseconds
            (datetime_now
               (Examples.world (inr (PDateTime Examples.T2010))
                               (Examples.ok Examples.archived)))
          - to_microseconds Examples.T2010)
    with (3650 * 86400000000) in Hbounds.
  unfold MICROSECONDS_PER_DAY in Hbounds. lia.
Defined.

(** X7: the age grows with the elapsed time: of two naive creation
    dates read against two clocks, the one further in the past never
    gets the smaller age. *)
Theorem age_monotone_in_elapsed_time
        (w1 w2 : World) (d1 d2 : string) (entry1 entry2 : WhoisEntry)
        (T1 T2 : datetime) (tr1 tr2 : trace) :
  whois_whois w1 d1 = inr entry1 -> creation_date entry1 = PDateTime T1 ->
  utcoffset T1 = None ->
  whois_whois w2 d2 = inr entry2 -> creation_date entry2 = PDateTime T2 ->
  utcoffset T2 = None ->
  to_microseconds (datetime_now w1) - to_microseconds T1
  <= to_microseconds (datetime_now w2) - to_microseconds T2 ->
  exists n1 n2 : Z,
    fst (get_domain_age w1 d1 tr1) = Return (Some n1) /\
    fst (get_domain_age w2 d2 tr2) = Return (Some n2) /\
    n1 <= n2.
Proof.
  intros Hw1 Hc1 HT1 Hw2 Hc2 HT2 Hle.
  rewrite (get_domain_age_naive w1 d1 entry1 T1 tr1 Hw1 Hc1 HT1).
  rewrite (get_domain_age_naive w2 d2 entry2 T2 tr2 Hw2 Hc2 HT2).
  do 2 eexists. split; [reflexivity|]. split; [reflexivity|].
  apply Z.div_le_mono; [unfold MICROSECONDS_PER_DAY; lia | exact Hle].
Qed.

Lemma age_monotone_in_elapsed_time_witness :
  exists n1 n2 : Z,
    fst (get_domain_age
           (Examples.world (inr (PDateTime Examples.T2010)) (Examples.ok Examples.archived))
           "example.com" []) = Return (Some n1) /\
    fst (get_domain_age
           (Examples.world (inr (PDateTime Examples.T1995)) (Examples.ok Examples.archived))
           "example.org" []) = Return (Some n2) /\
    n1 <= n2.
Proof.
  apply (age_monotone_in_elapsed_time
           (Examples.world (inr (PDateTime Examples.T2010)) (Examples.ok Examples.archived))
           (Examples.world (inr (PDateTime Examples.T1995)) (Examples.ok Examples.archived))
           "example.com" "example.org"
           {| creation_date := PDateTime Examples.T2010 |}
           {| creation_date := PDateTime Examples.T1995 |}
           Examples.T2010 Examples.T1995 [] []);
    try reflexivity.
  vm_compute. discriminate.
Defined.

(** ** The checker *)

(** X8: every run of the checker sends exactly one GET request, to the
    availability endpoint followed by the domain as it is, then makes
    exactly one log call, and returns; it prints nothing and makes no
    WHOIS lookup. *)
Theorem check_wayback_machine_one_request_one_log (w : World) (d : string) :
  exists (r : pyval) (lvl : level) (msg : fstring),
    forall tr,
      check_wayback_machine w d tr
      = (Return r,
         (tr ++ [EvHttpGet (String.append "http://archive.org/wayback/available?url=" d);
                 EvLog lvl msg])%list).
Proof.
  destruct (check_wayback_machine_total w d) as (r & lvl & msg & Hr).
  exists r, lvl, msg. exact Hr.
Qed.

(** X9: the checker hands back whatever value the body holds under
    [archived_snapshots.closest.url], a string or not, and logs it at
    INFO level. *)
Theorem wayback_returns_url_value_as_is
        (w : World) (d : string) (resp : Response)
        (m snaps c : gmap string pyval) (v : pyval) (tr : trace) :
  requests_get w (wayback_url d) = inr resp ->
  status_ok resp ->
  json resp = inr (PDict m) ->
  m !! "archived_snapshots" = Some (PDict snaps) ->
  snaps !! "closest" = Some (PDict c) ->
  c !! "url" = Some v ->
  check_wayback_machine w d tr
  = (Return v,
     (tr ++ [EvHttpGet (wayback_url d);
             EvLog INFO [Lit "Oldest Wayback Machine URL for "; Fmt (PStr d);
                         Lit ": "; Fmt v]])%list).
Proof.
  intros Hget Hst Hjson Hm Hs Hc.
  exact (check_wayback_machine_found w d resp (PDict m) Hget Hst Hjson
           m snaps c v tr eq_refl Hm Hs Hc).
Qed.

Lemma wayback_returns_url_value_as_is_witness :
  let body : gmap string pyval :=
    {[ "archived_snapshots" :=
         PDict {[ "closest" := PDict {[ "url" := PInt 42 ]} ]} ]} in
  fst (check_wayback_machine
         (Examples.world (inr PNone) (Examples.ok (PDict body))) "example.com" [])
  = Return (PInt 42).
Proof.
  intros body.
  rewrite (wayback_returns_url_value_as_is
             (Examples.world (inr PNone) (Examples.ok (PDict body))) "example.com"
             {| status_code := 200; json := inr (PDict body) |}
             body {[ "closest" := PDict {[ "url" := PInt 42 ]} ]}
             {[ "url" := PInt 42 ]} (PInt 42) []
             eq_refl (or_introl eq_refl) eq_refl eq_refl eq_refl eq_refl).
  reflexivity.
Defined.

(** X10: a body that parses but is not a JSON object (a list, a
    string, a number, a boolean, [null]) always gives [None]. *)
Theorem non_object_body_gives_none
        (w : World) (d : string) (resp : Response) (data : pyval) (tr : trace) :
  requests_get w (wayback_url d) = inr resp ->
  status_ok resp ->
  json resp = inr data ->
  (forall m, data <> PDict m) ->
  fst (check_wayback_machine w d tr) = Return PNone.
Proof.
  intros Hget Hst Hjson Hnd.
  destruct (check_wayback_machine_total w d) as (r & lvl & msg & Hr).
  rewrite Hr. simpl.
  destruct r; try reflexivity.
  all: exfalso.
  all: match goal with
       | Hr : forall tr, _ = (Return ?v, _) |- _ =>
           destruct (check_wayback_machine_some w d resp data Hget Hst Hjson v tr)
             as (m & _ & _ & Hd & _);
           [now rewrite Hr | discriminate | now apply (Hnd m)]
       end.
Qed.

Lemma non_object_body_gives_none_witness :
  fst (check_wayback_machine
         (Examples.world (inr PNone)
            (Examples.ok (PList [PStr "archived_snapshots"; PStr "closest"])))
         "example.com" []) = Return PNone.
Proof.
  apply (non_object_body_gives_none
           (Examples.world (inr PNone)
              (Examples.ok (PList [PStr "archived_snapshots"; PStr "closest"])))
           "example.com"
           {| status_code := 200;
              json := inr (PList [PStr "archived_snapshots"; PStr "closest"]) |}
           (PList [PStr "archived_snapshots"; PStr "closest"]) []);
    [reflexivity | left; reflexivity | reflexivity | discriminate].
Defined.

(** X11: the checker returns something other than [None] only on one
    path: the request succeeded, its status is not 4xx/5xx, the body is
    an object, [archived_snapshots] is an object, [closest] is an object
    and the returned value is the one it holds under [url]. *)
Theorem wayback_result_comes_from_url
        (w : World) (d : string) (v : pyval) (tr : trace) :
  fst (check_wayback_machine w d tr) = Return v ->
  v <> PNone ->
  exists (resp : Response) (m snaps c : gmap string pyval),
    requests_get w (wayback_url d) = inr resp /\
    status_ok resp /\
    json resp = inr (PDict m) /\
    m !! "archived_snapshots" = Some (PDict snaps) /\
    snaps !! "closest" = Some (PDict c) /\
    c !! "url" = Some v.
Proof.
  intros Hr Hv.
  destruct (requests_get w (wayback_url d)) as [e|resp] eqn:Hget.
  - destruct (check_wayback_machine_get_raises w d e tr Hget) as [msg Hn].
    rewrite Hn in Hr. simpl in Hr. congruence.
  - destruct (Z_lt_dec (status_code resp) 400) as [Hlo|Hlo];
      [|destruct (Z_le_dec 600 (status_code resp)) as [Hhi|Hhi]].
    3: { destruct (check_wayback_machine_http_error w d resp tr Hget ltac:(lia))
           as (e & _ & Hn).
         rewrite Hn in Hr. simpl in Hr. congruence. }
    all: assert (Hst : status_ok resp) by (unfold status_ok; lia).
    all: destruct (json resp) as [e|data] eqn:Hjson;
      [destruct (check_wayback_machine_json_raises w d resp e tr Hget Hst Hjson)
         as [msg Hn];
       rewrite Hn in Hr; simpl in Hr; congruence|].
    all: destruct (check_wayback_machine_some w d resp data Hget Hst Hjson v tr Hr Hv)
      as (m & snaps & c & -> & Hm & Hs & Hc).
    all: exists resp, m, snaps, c; repeat split; assumption.
Qed.

Lemma wayback_result_comes_from_url_witness :
  exists (resp : Response) (m snaps c : gmap string pyval),
    requests_get (Examples.world (inr PNone) (Examples.ok Examples.archived))
                 (wayback_url "example.com") = inr resp /\
    status_ok resp /\
    json resp = inr (PDict m) /\
    m !! "archived_snapshots" = Some (PDict snaps) /\
    snaps !! "closest" = Some (PDict c) /\
    c !! "url" = Some (PStr Examples.snapshot_url).
Proof.
  apply (wayback_result_comes_from_url
           (Examples.world (inr PNone) (Examples.ok Examples.archived))
           "example.com" (PStr Examples.snapshot_url) []);
    [reflexivity | discriminate].
Defined.

(** X12: only a status from 400 to 599 counts as a failure.  Any
    other status, a redirect or an unassigned code included, is not
    looked at again: two responses with the same body then give the
    same run. *)
Theorem status_outside_error_range_is_ignored
        (w1 w2 : World) (d : string) (resp1 resp2 : Response) (tr : trace) :
  requests_get w1 (wayback_url d) = inr resp1 ->
  requests_get w2 (wayback_url d) = inr resp2 ->
  status_ok resp1 ->
  status_ok resp2 ->
  json resp1 = json resp2 ->
  check_wayback_machine w1 d tr = check_wayback_machine w2 d tr.
Proof.
  intros Hg1 Hg2 Hs1 Hs2 Hj.
  unfold check_wayback_machine; fold (wayback_url d). step_M.
  rewrite Hg1, Hg2. simpl.
  rewrite (raise_for_status_ok _ _ Hs1), (raise_for_status_ok _ _ Hs2), Hj.
  reflexivity.
Qed.

Lemma status_outside_error_range_is_ignored_witness :
  check_wayback_machine
    (Examples.world (inr PNone)
       (inr {| status_code := 302; json := inr Examples.archived |}))
    "example.com" []
  = check_wayback_machine
      (Examples.world (inr PNone)
         (inr {| status_code := 600; json := inr Examples.archived |}))
      "example.com" [].
Proof.
  apply (status_outside_error_range_is_ignored
           (Examples.world (inr PNone)
              (inr {| status_code := 302; json := inr Examples.archived |}))
           (Examples.world (inr PNone)
              (inr {| status_code := 600; json := inr Examples.archived |}))
           "example.com"
           {| status_code := 302; json := inr Examples.archived |}
           {| status_code := 600; json := inr Examples.archived |} []);
    [reflexivity | reflexivity | left; reflexivity | right; discriminate | reflexivity].
Defined.

(** X13: how a failure of the checker is logged depends on the class
    of the exception.  A [RequestException] -- a failed request, the
    [HTTPError] of a 4xx/5xx status, a body that [requests] could not
    decode -- is reported as an error accessing the Wayback Machine;
    any other exception as an unexpected error. *)
Theorem wayback_failure_log_by_class :
  (forall (w : World) (d : string) (e : exn) (tr : trace),
      requests_get w (wayback_url d) = inl e ->
      check_wayback_machine w d tr
      = (Return PNone,
         (tr ++ [EvHttpGet (wayback_url d);
                 EvLog ERROR
                   (if is_RequestException e
                    then [Lit "Error accessing Wayback Machine for ";
                          Fmt (PStr d); Lit ": "; FmtExn e]
                    else [Lit "An unexpected error occurred while checking the Wayback Machine for ";
                          Fmt (PStr d); Lit ": "; FmtExn e])])%list)) /\
  (forall (w : World) (d : string) (resp : Response) (e : exn) (tr : trace),
      requests_get w (wayback_url d) = inr resp ->
      status_ok resp ->
      json resp = inl e ->
      check_wayback_machine w d tr
      = (Return PNone,
         (tr ++ [EvHttpGet (wayback_url d);
                 EvLog ERROR
                   (if is_RequestException e
                    then [Lit "Error accessing Wayback Machine for ";
                          Fmt (PStr d); Lit ": "; FmtExn e]
                    else [Lit "An unexpected error occurred while checking the Wayback Machine for ";
                          Fmt (PStr d); Lit ": "; FmtExn e])])%list)) /\
  (forall (w : World) (d : string) (resp : Response) (tr : trace),
      requests_get w (wayback_url d) = inr resp ->
      400 <= status_code resp < 600 ->
      exists e,
        exn_cls e = HTTPError /\
        check_wayback_machine w d tr
        = (Return PNone,
           (tr ++ [EvHttpGet (wayback_url d);
                   EvLog ERROR [Lit "Error accessing Wayback Machine for ";
                                Fmt (PStr d); Lit ": "; FmtExn e]])%list)).
Proof.
  split; [|split].
  - intros w d e tr Hget. unfold check_wayback_machine; fold (wayback_url d). step_M.
    rewrite Hget. simpl.
    destruct (is_RequestException e); simpl; now rewrite <- app_assoc.
  - intros w d resp e tr Hget Hst Hjson.
    unfold check_wayback_machine; fold (wayback_url d). step_M.
    rewrite Hget. simpl. rewrite (raise_for_status_ok _ _ Hst), Hjson. simpl.
    destruct (is_RequestException e); simpl; now rewrite <- app_assoc.
  - intros w d resp tr Hget Hst.
    exact (check_wayback_machine_http_error w d resp tr Hget Hst).
Qed.

Lemma wayback_failure_log_by_class_witness :
  map (fun ev => match ev with EvLog _ msg => render msg | _ => None end)
      (snd (check_wayback_machine
              (Examples.world (inr PNone) (inl Examples.connection_refused))
              "example.com" []))
  = [None; Some "Error accessing Wayback Machine for example.com: connection refused"].
Proof.
  rewrite (proj1 wayback_failure_log_by_class
             (Examples.world (inr PNone) (inl Examples.connection_refused))
             "example.com" Examples.connection_refused [] eq_refl).
  reflexivity.
Defined.

(** ** The entry point *)

(** X14: on a valid domain the run is strictly sequential: the WHOIS
    lookup, its log record and the age line come first; only then is the
    HTTP request sent, logged and its line printed.  Nothing else
    happens, apart from what [--verbose] adds at the start. *)
Theorem main_runs_the_queries_in_sequence (w : World) (args : Args) :
  valid_domain (domain args) ->
  exists (age : option Z) (url : pyval) (lvl1 lvl2 : level) (msg1 msg2 : fstring),
    run w args
    = (Return tt,
       (verbose_events args ++
          [EvWhois (domain args); EvLog lvl1 msg1;
           EvPrint (age_line (domain args) age);
           EvHttpGet (wayback_url (domain args)); EvLog lvl2 msg2;
           EvPrint (wayback_line (domain args) url)])%list).
Proof.
  intros Hvalid.
  destruct (run_valid w args Hvalid)
    as (age & url & lvl1 & lvl2 & msg1 & msg2 & _ & _ & Hrun).
  now exists age, url, lvl1, lvl2, msg1, msg2.
Qed.

Lemma main_runs_the_queries_in_sequence_witness :
  exists (age : option Z) (url : pyval) (lvl1 lvl2 : level) (msg1 msg2 : fstring),
    run (Examples.world (inr (PDateTime Examples.T2000)) (Examples.ok Examples.archived))
        Examples.example_com
    = (Return tt,
       [EvWhois "example.com"; EvLog lvl1 msg1;
        EvPrint (age_line "example.com" age);
        EvHttpGet (wayback_url "example.com"); EvLog lvl2 msg2;
        EvPrint (wayback_line "example.com" url)]).
Proof.
  exact (main_runs_the_queries_in_sequence
           (Examples.world (inr (PDateTime Examples.T2000)) (Examples.ok Examples.archived))
           Examples.example_com valid_example_com).
Defined.

(** X15: the [--verbose] flag changes nothing but the start of the
    trace: it raises the log level and logs one DEBUG record; the
    outcome and everything that follows are the same as without it. *)
Theorem verbose_only_adds_two_events (w : World) (d : string) :
  fst (run w {| domain := d; verbose := true |})
  = fst (run w {| domain := d; verbose := false |}) /\
  snd (run w {| domain := d; verbose := true |})
  = ([EvSetLevel DEBUG; EvLog DEBUG [Lit "Verbose logging enabled."]]
       ++ snd (run w {| domain := d; verbose := false |}))%list.
Proof.
  destruct (valid_or_rejected d) as [Hvalid|Hrej].
  - destruct (get_domain_age_total w d) as (age & lvl1 & msg1 & Hage).
    destruct (check_wayback_machine_total w d) as (url & lvl2 & msg2 & Hurl).
    unfold run.
    rewrite (main_valid w {| domain := d; verbose := true |}
               age url lvl1 lvl2 msg1 msg2 [] Hvalid Hage Hurl).
    rewrite (main_valid w {| domain := d; verbose := false |}
               age url lvl1 lvl2 msg1 msg2 [] Hvalid Hage Hurl).
    split; reflexivity.
  - destruct (is_valid_domain_rejects _ Hrej) as [msg Hmsg].
    unfold run.
    rewrite (main_invalid w {| domain := d; verbose := true |} msg [] Hmsg).
    rewrite (main_invalid w {| domain := d; verbose := false |} msg [] Hmsg).
    split; reflexivity.
Qed.

(** X16: [main] tests the answer of the checker for truth, not for
    [None]: when the body holds a falsy value under [url] (an empty
    string, [null], 0), the checker does return that value, yet [main]
    prints that the domain was not found. *)
Theorem falsy_url_prints_not_found
        (w : World) (args : Args) (resp : Response)
        (m snaps c : gmap string pyval) (v : pyval) :
  valid_domain (domain args) ->
  requests_get w (wayback_url (domain args)) = inr resp ->
  status_ok resp ->
  json resp = inr (PDict m) ->
  m !! "archived_snapshots" = Some (PDict snaps) ->
  snaps !! "closest" = Some (PDict c) ->
  c !! "url" = Some v ->
  truthy v = false ->
  fst (check_wayback_machine w (domain args) []) = Return v /\
  exists first,
    printed (snd (run w args))
    = [first;
       [Lit "Domain "; Fmt (PStr (domain args));
        Lit " not found in the Wayback Machine."]].
Proof.
  intros Hvalid Hget Hst Hjson Hm Hs Hc Hv.
  pose proof (fun tr => check_wayback_machine_found w (domain args) resp (PDict m)
                          Hget Hst Hjson m snaps c v tr eq_refl Hm Hs Hc) as Hurl.
  split; [now rewrite Hurl|].
  destruct (get_domain_age_total w (domain args)) as (age & lvl1 & msg1 & Hage).
  exists (age_line (domain args) age). unfold run.
  rewrite (main_valid w args age v _ _ _ _ [] Hvalid Hage Hurl).
  unfold verbose_events, wayback_line. rewrite Hv.
  destruct (verbose args); reflexivity.
Qed.

Lemma falsy_url_prints_not_found_witness :
  let body : gmap string pyval :=
    {[ "archived_snapshots" :=
         PDict {[ "closest" := PDict {[ "url" := PStr "" ]} ]} ]} in
  let w := Examples.world (inr (PDateTime Examples.T2000)) (Examples.ok (PDict body)) in
  fst (check_wayback_machine w "example.com" []) = Return (PStr "") /\
  exists first,
    printed (snd (run w Examples.example_com))
    = [first;
       [Lit "Domain "; Fmt (PStr "example.com");
        Lit " not found in the Wayback Machine."]].
Proof.
  intros body w.
  apply (falsy_url_prints_not_found w Examples.example_com
           {| status_code := 200; json := inr (PDict body) |}
           body {[ "closest" := PDict {[ "url" := PStr "" ]} ]}
           {[ "url" := PStr "" ]} (PStr "") valid_example_com
           eq_refl (or_introl eq_refl) eq_refl eq_refl eq_refl eq_refl eq_refl).
Defined.
